(** * katpool block-template fetcher: a model of [main.go]

    The program loads its configuration, derives the payout address of the
    pool treasury, connects to a kaspad node and to Redis, and then runs two
    goroutines: a poller that fetches block templates, stores the latest one
    under a mutex and publishes its JSON to a Redis channel, and a reporter
    that looks at the stored template every five seconds.

    The model is a shallow embedding.  Everything outside the file (the
    .env file, config.json, the kaspad RPC, json.Marshal, Redis) is a
    field of a record [World]; the code itself is translated function by
    function.  The two goroutines are small-step machines whose atomic
    steps are the sections the mutex protects. *)

From Stdlib Require Import List String Ascii ZArith Lia Bool Arith.
Import ListNotations.

Local Open Scope string_scope.
Local Open Scope list_scope.
Local Open Scope Z_scope.

(** ** Go values *)

(** A Go [error] value.  The constructors are the errors this program can
    meet: those of strconv and encoding/hex, an error of an external
    collaborator carried with its text, and [errors.Wrap]. *)
Inductive error : Type :=
| ErrSyntax (fn : string) (input : string)      (* strconv.ErrSyntax *)
| ErrRange (fn : string) (input : string)       (* strconv.ErrRange *)
| InvalidByteError (c : ascii)                  (* hex.InvalidByteError *)
| ErrLength                                     (* hex.ErrLength *)
| ErrExternal (text : string)
| Wrap (cause : error) (message : string).      (* errors.Wrap *)

(** The pair (value, error) a Go function returns. *)
Inductive result (A : Type) : Type :=
| Ok (a : A)
| Err (e : error).
Arguments Ok {A} a.
Arguments Err {A} e.

(** Two's complement wrap-around of Go's int64. *)
Definition wrap_int64 (z : Z) : Z := (z + 2 ^ 63) mod 2 ^ 64 - 2 ^ 63.

(** [time.Second], in nanoseconds. *)
Definition Second : Z := 1000000000.

(** ** strconv.Atoi (Go standard library, 64-bit int) *)

Module strconv.

Definition fnAtoi : string := "Atoi".

Definition code (c : ascii) : Z := Z.of_nat (nat_of_ascii c).

Definition maxUint64 : Z := 2 ^ 64 - 1.

(** The digit loop of ParseUint in base 10 with bitSize 64: [n] is the
    uint64 accumulator. *)
Fixpoint parseUintLoop (fn s0 : string) (s : string) (n : Z) : result Z :=
  match s with
  | EmptyString => Ok n
  | String c rest =>
      if andb (48 <=? code c) (code c <=? 57) then
        let d := code c - 48 in
        if n >=? maxUint64 / 10 + 1 then Err (ErrRange fn s0)
        else
          let n := n * 10 in
          let n1 := (n + d) mod 2 ^ 64 in
          if orb (n1 <? n) (n1 >? maxUint64) then Err (ErrRange fn s0)
          else parseUintLoop fn s0 rest n1
      else Err (ErrSyntax fn s0)
  end.

Definition ParseUint (fn s0 s : string) : result Z :=
  match s with
  | EmptyString => Err (ErrSyntax fn s0)
  | _ => parseUintLoop fn s0 s 0
  end.

(** ParseInt(s, 10, 0). *)
Definition ParseInt (fn s : string) : result Z :=
  match s with
  | EmptyString => Err (ErrSyntax fn s)
  | String c rest =>
      let neg := Ascii.eqb c "-" in
      let body := if orb (Ascii.eqb c "+") (Ascii.eqb c "-") then rest else s in
      match ParseUint fn s body with
      | Err e => Err e
      | Ok un =>
          let cutoff := 2 ^ 63 in
          if andb (negb neg) (un >=? cutoff) then Err (ErrRange fn s)
          else if andb neg (un >? cutoff) then Err (ErrRange fn s)
          else Ok (if neg then wrap_int64 (- wrap_int64 un) else wrap_int64 un)
      end
  end.

(** The digit loop of Atoi's fast path: [ch -= '0'] on a byte. *)
Fixpoint fastLoop (s0 : string) (s : string) (n : Z) : result Z :=
  match s with
  | EmptyString => Ok n
  | String c rest =>
      let ch := (code c - 48) mod 256 in
      if ch >? 9 then Err (ErrSyntax fnAtoi s0)
      else fastLoop s0 rest (n * 10 + ch)
  end.

Definition Atoi (s : string) : result Z :=
  let sLen := Z.of_nat (String.length s) in
  if andb (0 <? sLen) (sLen <? 19) then
    match s with
    | EmptyString => Err (ErrSyntax fnAtoi s)
    | String c rest =>
        let signed := orb (Ascii.eqb c "-") (Ascii.eqb c "+") in
        let body := if signed then rest else s in
        if andb signed (Z.of_nat (String.length body) <? 1)
        then Err (ErrSyntax fnAtoi s)
        else
          match fastLoop s body 0 with
          | Err e => Err e
          | Ok n => Ok (if Ascii.eqb c "-" then - n else n)
          end
    end
  else ParseInt fnAtoi s.

End strconv.

(** ** encoding/hex.DecodeString (Go standard library) *)

Module hex.

(** The entry of reverseHexTable for [c]; 255 marks a byte that is not a
    hexadecimal digit. *)
Definition fromHexChar (c : ascii) : Z :=
  let k := strconv.code c in
  if andb (48 <=? k) (k <=? 57) then k - 48
  else if andb (97 <=? k) (k <=? 102) then k - 97 + 10
  else if andb (65 <=? k) (k <=? 70) then k - 65 + 10
  else 255.

Fixpoint Decode (src : list ascii) : result (list Z) :=
  match src with
  | [] => Ok []
  | [p] => if fromHexChar p >? 15 then Err (InvalidByteError p) else Err ErrLength
  | p :: q :: rest =>
      let a := fromHexChar p in
      let b := fromHexChar q in
      if a >? 15 then Err (InvalidByteError p)
      else if b >? 15 then Err (InvalidByteError q)
      else
        match Decode rest with
        | Ok bytes => Ok (Z.lor (Z.shiftl a 4) b :: bytes)
        | Err e => Err e
        end
  end.

Definition DecodeString (s : string) : result (list Z) :=
  Decode (list_ascii_of_string s).

End hex.

(** ** Configuration *)

Record BridgeConfig : Type := {
  RPCServer : list string;        (* json: node *)
  Network : string;               (* json: network *)
  BlockWaitTimeSec : string;      (* json: block_wait_time_seconds *)
  RedisAddress : string;          (* json: redis_address *)
  RedisChannel : string           (* json: redis_channel *)
}.

Record KaspaApi : Type := {
  address : string;
  blockWaitTime : Z;              (* time.Duration: int64 nanoseconds *)
  connected : bool
}.

(** ** Payout address *)

(** kaspad's [util.Bech32Prefix]. *)
Inductive Bech32Prefix : Type :=
| Bech32PrefixUnknown
| Bech32PrefixKaspa
| Bech32PrefixKaspaDev
| Bech32PrefixKaspaTest
| Bech32PrefixKaspaSim.

(** The kaspad wallet functions that [fetchKaspaAccountFromPrivateKey]
    calls.  They are outside this repository and stay abstract. *)
Record KaspaWallet : Type := {
  PublicKeyFromPrivateKey : list Z -> result (list Z);
  (* util.NewAddressPublicKey followed by its String method *)
  NewAddressPublicKey : list Z -> Bech32Prefix -> result string;
  (* util.DecodeAddress followed by EncodeAddress *)
  DecodeAddress : string -> Bech32Prefix -> result string
}.

Definition networkPrefix (network : string) : Bech32Prefix :=
  if orb (String.eqb network "testnet-10") (String.eqb network "testnet-11")
  then Bech32PrefixKaspaTest
  else Bech32PrefixKaspa.

(** The part of [fetchKaspaAccountFromPrivateKey] after the prefix is
    chosen. *)
Definition deriveAddress (lib : KaspaWallet) (prefix : Bech32Prefix)
    (privateKeyHex : string) : result string :=
  match hex.DecodeString privateKeyHex with
  | Err e => Err e
  | Ok privateKeyBytes =>
      match PublicKeyFromPrivateKey lib privateKeyBytes with
      | Err e => Err e
      | Ok publicKeybytes =>
          match NewAddressPublicKey lib publicKeybytes prefix with
          | Err e => Err e
          | Ok addressPubKey =>
              match DecodeAddress lib addressPubKey prefix with
              | Err e => Err e
              | Ok address => Ok address
              end
          end
      end
  end.

Definition fetchKaspaAccountFromPrivateKey (lib : KaspaWallet)
    (network privateKeyHex : string) : result string :=
  let prefix := networkPrefix network in
  deriveAddress lib prefix privateKeyHex.

(** ** The world outside the program *)

Section Model.

(** [appmessage.GetBlockTemplateResponseMessage]: the program never looks
    inside it. *)
Variable Template : Type.

(** An operand of a formatting call. *)
Inductive value : Type :=
| VErr (e : error)
| VStr (s : string)
| VConfig (c : BridgeConfig).

(** What a goroutine does, in program order.  Printing calls are kept as
    their format string and operands; Println, which prints its operands in
    the default format with spaces between them and a newline, is kept as
    the format of that many %v. *)
Inductive event : Type :=
| Stdout (format : string) (args : list value)   (* fmt.Printf, fmt.Println *)
| Log (format : string) (args : list value)      (* log.Printf, log.Println *)
| Fatal (format : string) (args : list value)    (* log.Fatalf: print, then os.Exit(1) *)
| CloseFile                                      (* deferred file.Close() *)
| CloseRedis                                     (* deferred rdb.Close() *)
| Dial (addr : string)                           (* rpcclient.NewRPCClient(addr) *)
| Ping (addr : string)                           (* rdb.Ping(ctx) *)
| Fetch (miningAddr extraData : string)          (* kaspad.GetBlockTemplate *)
| Store (t : Template)                           (* currentTemplate = template, under the mutex *)
| Marshal (t : Template)                         (* json.Marshal(template) *)
| Publish (channel payload : string)             (* rdb.Publish(ctx, channel, payload) *)
| Sleep (d : Z).                                 (* time.Sleep(d) *)

Record World : Type := {
  godotenv_Load : option error;                  (* godotenv.Load of ../.env *)
  TREASURY_PRIVATE_KEY : string;                 (* os.Getenv *)
  os_Open : option error;                        (* os.Open of ./config.json *)
  json_Decode : result BridgeConfig;             (* decoder.Decode(&config) *)
  wallet : KaspaWallet;
  NewRPCClient : string -> option error;         (* by node address *)
  redis_Ping : string -> option error;           (* by Redis address *)
  (* the answer of the node to the k-th GetBlockTemplate request *)
  kaspad_GetBlockTemplate : string -> nat -> result Template;
  json_Marshal : Template -> result string;
  (* the answer of Redis to the k-th Publish *)
  redis_Publish : nat -> string -> string -> option error
}.

(** ** Startup: [main] up to the launch of the goroutines *)

(** How the process ends when it ends during startup. *)
Inductive outcome : Type :=
| Exited (status : Z)
| Panicked (message : string).     (* run-time panic: exit status 2 *)

Definition exitStatus (o : outcome) : Z :=
  match o with
  | Exited status => status
  | Panicked _ => 2
  end.

(** Events so far, and either the end of the process or a value. *)
Definition M (A : Type) : Type := (list event * (outcome + A))%type.

Definition ret {A} (a : A) : M A := ([], inr a).

Definition bind {A B} (m : M A) (f : A -> M B) : M B :=
  match m with
  | (tr, inl o) => (tr, inl o)
  | (tr, inr a) => let '(tr', r) := f a in (tr ++ tr', r)
  end.

Definition emit (e : event) : M unit := ([e], inr tt).

Definition stop {A} (o : outcome) : M A := ([], inl o).

Notation "x <- m ;; k" := (bind m (fun x => k))
  (at level 61, m at next level, right associativity).
Notation "m ;;; k" := (bind m (fun _ => k))
  (at level 61, right associativity).

(** log.Fatalf: the message, then os.Exit(1); deferred calls do not run. *)
Definition log_Fatalf {A} (format : string) (args : list value) : M A :=
  emit (Fatal format args) ;;; stop (Exited 1).

(** [return] from main: the deferred calls run, the exit status is 0. *)
Fixpoint run_deferred (deferred : list event) : M unit :=
  match deferred with
  | [] => ret tt
  | e :: rest => emit e ;;; run_deferred rest
  end.

Definition main_return {A} (deferred : list event) : M A :=
  run_deferred deferred ;;; stop (Exited 0).

(** A run-time panic: the deferred calls run, then the process dies. *)
Definition panic {A} (deferred : list event) (message : string) : M A :=
  run_deferred deferred ;;; stop (Panicked message).

(** config.RPCServer[0] *)
Definition index0 (deferred : list event) (l : list string) : M string :=
  match l with
  | [] => panic deferred "runtime error: index out of range [0] with length 0"
  | x :: _ => ret x
  end.

Definition NewKaspaAPI (W : World) (address : string) (blockWaitTime : Z)
  : M (result KaspaApi) :=
  emit (Dial address) ;;;
  match NewRPCClient W address with
  | Some err => ret (Err err)
  | None => ret (Ok {| address := address;
                       blockWaitTime := blockWaitTime;
                       connected := true |})
  end.

(** What the goroutines capture from main. *)
Record Serving : Type := {
  ksApi : KaspaApi;
  minerAddress : string;
  config : BridgeConfig
}.

Definition startup (W : World) : M Serving :=
  (* Step 1: Load .env file *)
  match godotenv_Load W with
  | Some err => log_Fatalf "Error loading .env file: %v" [VErr err]
  | None => ret tt
  end ;;;
  (* Step 2: Read environment variables *)
  let privateKey := TREASURY_PRIVATE_KEY W in
  (* Open the JSON file *)
  match os_Open W with
  | Some err => emit (Stdout "Error opening file: %v\n" [VErr err]) ;;; main_return []
  | None => ret tt
  end ;;;
  (* Decode JSON into the struct *)
  config <- match json_Decode W with
            | Err err =>
                emit (Stdout "Error decoding JSON: %v\n" [VErr err]) ;;;
                main_return [CloseFile]
            | Ok config => ret config
            end ;;
  emit (Log "%v %v\n" [VStr "Config : %v"; VConfig config]) ;;;
  address <- match fetchKaspaAccountFromPrivateKey (wallet W) (Network config) privateKey with
             | Err err =>
                 log_Fatalf "failed to retrieve address from private key : %v" [VErr err]
             | Ok address => ret address
             end ;;
  emit (Log "%v %v\n" [VStr "Address : "; VStr address]) ;;;
  (* Initialize Kaspa API *)
  num <- match strconv.Atoi (BlockWaitTimeSec config) with
         | Err err =>
             emit (Stdout "%v %v\n" [VStr "Error: Invalid BlockWaitTimeSec : "; VErr err]) ;;;
             main_return [CloseFile]
         | Ok num => ret num
         end ;;
  node <- index0 [CloseFile] (RPCServer config) ;;
  r <- NewKaspaAPI W node (wrap_int64 (num * Second)) ;;
  ksApi <- match r with
           | Err err => log_Fatalf "failed to initialize Kaspa API: %v" [VErr err]
           | Ok ksApi => ret ksApi
           end ;;
  (* Initialize Redis client; test Redis connection *)
  emit (Ping (RedisAddress config)) ;;;
  match redis_Ping W (RedisAddress config) with
  | Some err => log_Fatalf "could not connect to Redis: %v" [VErr err]
  | None => ret tt
  end ;;;
  ret {| ksApi := ksApi; minerAddress := address; config := config |}.

(** The steps of main before the check of the wait time all succeed:
    the configuration is [cfg] and the payout address is [addr]. *)
Definition reaches_wait_time (W : World) (cfg : BridgeConfig) (addr : string) : Prop :=
  godotenv_Load W = None /\
  os_Open W = None /\
  json_Decode W = Ok cfg /\
  fetchKaspaAccountFromPrivateKey (wallet W) (Network cfg) (TREASURY_PRIVATE_KEY W)
    = Ok addr.

(** The exit status of a startup that ended the process. *)
Definition exit_status_of {A} (m : M A) : option Z :=
  match snd m with
  | inl o => Some (exitStatus o)
  | inr _ => None
  end.

(** The events that reach out to the node or to Redis. *)
Definition is_network (e : event) : bool :=
  match e with
  | Dial _ | Ping _ | Fetch _ _ | Publish _ _ => true
  | _ => false
  end.

Definition attempts_network (tr : list event) : bool := existsb is_network tr.

(** A message for the operator. *)
Definition is_message (e : event) : bool :=
  match e with
  | Stdout _ _ | Fatal _ _ => true
  | _ => false
  end.

(** The last message printed, if any. *)
Definition last_message (tr : list event) : option event :=
  hd_error (rev (filter is_message tr)).

(** ** The poller goroutine *)

(** method (ks *KaspaApi) GetBlockTemplate, at the [k]-th request *)
Definition GetBlockTemplate (W : World) (ks : KaspaApi) (miningAddr : string)
    (k : nat) : result Template :=
  match kaspad_GetBlockTemplate W miningAddr k with
  | Err err => Err (Wrap err "failed fetching new block template from kaspa")
  | Ok template => Ok template
  end.

(** Where the poller stands, with its live local variables. *)
Inductive pc : Type :=
| AtFetch                                        (* top of the for loop *)
| AtSleepRetry                                   (* the Sleep of the fetch error branch *)
| AtStore (template : Template)                  (* Lock; currentTemplate = template; Unlock *)
| AtMarshal (template : Template)
| AtPublish (template : Template) (templateJSON : string)
| AtSleep.                                       (* the Sleep that ends the loop body *)

Record State : Type := mkState {
  poller : pc;
  currentTemplate : option Template;             (* nil is None *)
  fetches : nat;                                 (* GetBlockTemplate requests made *)
  publishes : nat;                               (* Publish calls made *)
  bus : list (string * string);                  (* what Redis was handed, in order *)
  plog : list event;                             (* the poller's actions *)
  rlog : list event                              (* the reporter's actions *)
}.

Definition initial : State :=
  {| poller := AtFetch; currentTemplate := None; fetches := 0; publishes := 0;
     bus := []; plog := []; rlog := [] |}.

Definition poll_step (W : World) (sv : Serving) (s : State) : State :=
  match poller s with
  | AtFetch =>
      match GetBlockTemplate W (ksApi sv) (minerAddress sv) (fetches s) with
      | Err err =>
          mkState AtSleepRetry (currentTemplate s) (S (fetches s)) (publishes s)
            (bus s)
            (plog s ++ [Fetch (minerAddress sv) "Katpool";
                        Log "error fetching block template: %v" [VErr err]])
            (rlog s)
      | Ok template =>
          mkState (AtStore template) (currentTemplate s) (S (fetches s))
            (publishes s) (bus s)
            (plog s ++ [Fetch (minerAddress sv) "Katpool"]) (rlog s)
      end
  | AtSleepRetry =>
      mkState AtFetch (currentTemplate s) (fetches s) (publishes s) (bus s)
        (plog s ++ [Sleep (blockWaitTime (ksApi sv))]) (rlog s)
  | AtStore template =>
      mkState (AtMarshal template) (Some template) (fetches s) (publishes s) (bus s)
        (plog s ++ [Store template]) (rlog s)
  | AtMarshal template =>
      match json_Marshal W template with
      | Err err =>
          (* continue *)
          mkState AtFetch (currentTemplate s) (fetches s) (publishes s) (bus s)
            (plog s ++ [Marshal template;
                        Log "error serializing template to JSON: %v" [VErr err]])
            (rlog s)
      | Ok templateJSON =>
          mkState (AtPublish template templateJSON) (currentTemplate s) (fetches s)
            (publishes s) (bus s) (plog s ++ [Marshal template]) (rlog s)
      end
  | AtPublish template templateJSON =>
      let channel := RedisChannel (config sv) in
      mkState AtSleep (currentTemplate s) (fetches s) (S (publishes s))
        (bus s ++ [(channel, templateJSON)])
        (plog s ++ [Publish channel templateJSON;
                    match redis_Publish W (publishes s) channel templateJSON with
                    | Some err => Log "error publishing to Redis: %v" [VErr err]
                    | None => Log "template published to Redis channel %s" [VStr channel]
                    end])
        (rlog s)
  | AtSleep =>
      mkState AtFetch (currentTemplate s) (fetches s) (publishes s) (bus s)
        (plog s ++ [Sleep (blockWaitTime (ksApi sv))]) (rlog s)
  end.

Definition at_loop_head (s : State) : bool :=
  match poller s with AtFetch => true | _ => false end.

(** The poller runs until it is back at the top of its loop. *)
Fixpoint until_loop_head (W : World) (sv : Serving) (fuel : nat) (s : State) : State :=
  match fuel with
  | O => s
  | S fuel =>
      let s' := poll_step W sv s in
      if at_loop_head s' then s' else until_loop_head W sv fuel s'
  end.

(** One iteration of the poller's [for] loop. *)
Definition poll_cycle (W : World) (sv : Serving) (s : State) : State :=
  until_loop_head W sv 5 s.

Definition poll_cycles (W : World) (sv : Serving) (n : nat) (s : State) : State :=
  Nat.iter n (poll_cycle W sv) s.

(** ** The reporter: the [for] loop at the end of main *)

(** One iteration: five seconds of sleep, then a look at currentTemplate
    under the mutex.  The branch for a stored template is empty: the
    Printf in it is commented out. *)
Definition status_tick (s : State) : State :=
  mkState (poller s) (currentTemplate s) (fetches s) (publishes s) (bus s) (plog s)
    (rlog s ++ Sleep (5 * Second) ::
       match currentTemplate s with
       | Some _ => []
       | None => [Stdout "%v\n" [VStr "No block template fetched yet."]]
       end).

(** ** The two goroutines together *)

Inductive goroutine : Type := Poller | Reporter.

Definition sys_step (W : World) (sv : Serving) (g : goroutine) (s : State) : State :=
  match g with
  | Poller => poll_step W sv s
  | Reporter => status_tick s
  end.

(** The state after the steps of a schedule, first step first. *)
Definition run (W : World) (sv : Serving) (schedule : list goroutine) (s : State) : State :=
  fold_left (fun s g => sys_step W sv g s) schedule s.

(** The template of the latest successful request among the first [n]. *)
Fixpoint last_fetched (W : World) (sv : Serving) (n : nat) : option Template :=
  match n with
  | O => None
  | S k =>
      match GetBlockTemplate W (ksApi sv) (minerAddress sv) k with
      | Ok template => Some template
      | Err _ => last_fetched W sv k
      end
  end.

(** What holds of currentTemplate at each point of the poller.  Between
    the return of a successful request and the store, currentTemplate is
    still the template of the request before; from the store to the end
    of the iteration it is the template just fetched. *)
Definition cache_invariant (W : World) (sv : Serving) (s : State) : Prop :=
  match poller s with
  | AtStore template =>
      last_fetched W sv (fetches s) = Some template /\
      currentTemplate s = last_fetched W sv (pred (fetches s))
  | AtMarshal template =>
      currentTemplate s = last_fetched W sv (fetches s) /\
      currentTemplate s = Some template /\
      exists before, plog s = before ++ [Store template]
  | AtPublish template templateJSON =>
      currentTemplate s = last_fetched W sv (fetches s) /\
      currentTemplate s = Some template /\
      json_Marshal W template = Ok templateJSON /\
      exists before, plog s = before ++ [Store template; Marshal template]
  | AtFetch | AtSleepRetry | AtSleep =>
      currentTemplate s = last_fetched W sv (fetches s)
  end.

(** The log of [n] iterations whose fetch failed with [errs 0], ...,
    [errs (n - 1)]. *)
Definition failed_cycles_log (sv : Serving) (errs : nat -> error) (n : nat)
  : list event :=
  flat_map
    (fun k =>
       [Fetch (minerAddress sv) "Katpool";
        Log "error fetching block template: %v"
          [VErr (Wrap (errs k) "failed fetching new block template from kaspa")];
        Sleep (blockWaitTime (ksApi sv))])
    (seq 0 n).

Definition is_sleep (e : event) : bool :=
  match e with Sleep _ => true | _ => false end.

(** The steps of the poller in a schedule. *)
Definition poller_steps (schedule : list goroutine) : list goroutine :=
  filter (fun g => match g with Poller => true | Reporter => false end) schedule.

(** Two states that differ at most in the log of the reporter. *)
Definition same_poller (s1 s2 : State) : Prop :=
  poller s1 = poller s2 /\
  currentTemplate s1 = currentTemplate s2 /\
  fetches s1 = fetches s2 /\
  publishes s1 = publishes s2 /\
  bus s1 = bus s2 /\
  plog s1 = plog s2.

(** The whole program: startup, then the schedule. *)
Definition main (W : World) (schedule : list goroutine)
  : list event * (outcome + State) :=
  match startup W with
  | (tr, inl o) => (tr, inl o)
  | (tr, inr sv) => (tr, inr (run W sv schedule initial))
  end.

End Model.

Arguments godotenv_Load {Template}.
Arguments TREASURY_PRIVATE_KEY {Template}.
Arguments os_Open {Template}.
Arguments json_Decode {Template}.
Arguments wallet {Template}.
Arguments NewRPCClient {Template}.
Arguments redis_Ping {Template}.
Arguments kaspad_GetBlockTemplate {Template}.
Arguments json_Marshal {Template}.
Arguments redis_Publish {Template}.
Arguments Stdout {Template}.
Arguments Log {Template}.
Arguments Fatal {Template}.
Arguments CloseFile {Template}.
Arguments CloseRedis {Template}.
Arguments Dial {Template}.
Arguments Ping {Template}.
Arguments Fetch {Template}.
Arguments Store {Template}.
Arguments Marshal {Template}.
Arguments Publish {Template}.
Arguments Sleep {Template}.
Arguments AtFetch {Template}.
Arguments AtSleepRetry {Template}.
Arguments AtStore {Template}.
Arguments AtMarshal {Template}.
Arguments AtPublish {Template}.
Arguments AtSleep {Template}.
Arguments startup {Template}.
Arguments reaches_wait_time {Template}.
Arguments exit_status_of {Template A}.
Arguments main {Template}.
Arguments poll_step {Template}.
Arguments poll_cycle {Template}.
Arguments poll_cycles {Template}.
Arguments until_loop_head {Template}.
Arguments status_tick {Template}.
Arguments sys_step {Template}.
Arguments run {Template}.
Arguments last_fetched {Template}.
Arguments GetBlockTemplate {Template}.
Arguments initial {Template}.
Arguments same_poller {Template}.
Arguments cache_invariant {Template}.
Arguments failed_cycles_log {Template}.
Arguments is_sleep {Template}.
Arguments at_loop_head {Template}.
Arguments attempts_network {Template}.
Arguments is_network {Template}.
Arguments is_message {Template}.
Arguments last_message {Template}.
Arguments poller {Template}.
Arguments currentTemplate {Template}.
Arguments fetches {Template}.
Arguments publishes {Template}.
Arguments bus {Template}.
Arguments plog {Template}.
Arguments rlog {Template}.
Arguments mkState {Template}.

(** ** Test doubles

    A wallet, a node that answers from a script, a serializer and a bus, to
    run the model on concrete inputs.  Templates are named by a string. *)

Module Fake.

Definition prefixString (p : Bech32Prefix) : string :=
  match p with
  | Bech32PrefixUnknown => "unknown"
  | Bech32PrefixKaspa => "kaspa"
  | Bech32PrefixKaspaDev => "kaspadev"
  | Bech32PrefixKaspaTest => "kaspatest"
  | Bech32PrefixKaspaSim => "kaspasim"
  end.

(** Accepts a key of 32 bytes and names the address after its prefix. *)
Definition kaspaWallet : KaspaWallet :=
  {| PublicKeyFromPrivateKey := fun key =>
       if (List.length key =? 32)%nat then Ok key
       else Err (ErrExternal "invalid private key length");
     NewAddressPublicKey := fun _ prefix => Ok (prefixString prefix ++ ":qtreasury")%string;
     DecodeAddress := fun s _ => Ok s |}.

Definition privateKey : string :=
  "0101010101010101010101010101010101010101010101010101010101010101".

Definition bridgeConfig (waitTime : string) (nodes : list string) : BridgeConfig :=
  {| RPCServer := nodes;
     Network := "mainnet";
     BlockWaitTimeSec := waitTime;
     RedisAddress := "127.0.0.1:6379";
     RedisChannel := "templates" |}.

(** The node answers its k-th request with the k-th entry of the script,
    and with an error once the script is over. *)
Definition scripted (script : list (result string)) (k : nat) : result string :=
  nth k script (Err (ErrExternal "connection closed")).

(** Serializes every template except the one named unserializable. *)
Definition marshal (t : string) : result string :=
  if String.eqb t "unserializable"
  then Err (ErrExternal "json: unsupported value")
  else Ok ("{" ++ t ++ "}")%string.

(** A world in which everything outside the program works, with the given
    configuration, node script and answers of Redis to Publish. *)
Definition world (cfg : BridgeConfig) (script : list (result string))
    (publish : nat -> option error) : World string :=
  {| godotenv_Load := None;
     TREASURY_PRIVATE_KEY := privateKey;
     os_Open := None;
     json_Decode := Ok cfg;
     wallet := kaspaWallet;
     NewRPCClient := fun _ => None;
     redis_Ping := fun _ => None;
     kaspad_GetBlockTemplate := fun _ k => scripted script k;
     json_Marshal := marshal;
     redis_Publish := fun k _ _ => publish k |}.

Definition accepting (k : nat) : option error := None.

Definition refusing (k : nat) : option error := Some (ErrExternal "redis: connection refused").

(** A world whose config.json cannot be opened, or cannot be decoded. *)
Definition world_with_config_file (open : option error)
    (decode : result BridgeConfig) : World string :=
  {| godotenv_Load := None;
     TREASURY_PRIVATE_KEY := privateKey;
     os_Open := open;
     json_Decode := decode;
     wallet := kaspaWallet;
     NewRPCClient := fun _ => None;
     redis_Ping := fun _ => None;
     kaspad_GetBlockTemplate := fun _ k => scripted [] k;
     json_Marshal := marshal;
     redis_Publish := fun k _ _ => None |}.

Definition no_such_file : error :=
  ErrExternal "open ./config.json: no such file or directory".

Definition node : string := "node:16110".

Definition timeout : error := ErrExternal "i/o timeout".

(** The world of a working deployment with the given wait time, node
    script and Redis. *)
Definition deployment (waitTime : string) (script : list (result string))
    (publish : nat -> option error) : World string :=
  world (bridgeConfig waitTime [node]) script publish.

(** The world of a deployment whose node list is empty. *)
Definition deployment_without_nodes : World string :=
  world (bridgeConfig "5" []) [] accepting.

(** What main hands to the goroutines in [world (bridgeConfig "5" ["node:16110"])]. *)
Definition serving : Serving :=
  {| ksApi := {| address := "node:16110"; blockWaitTime := 5 * Second; connected := true |};
     minerAddress := "kaspa:qtreasury";
     config := bridgeConfig "5" ["node:16110"] |}.

End Fake.

(** ** Vocabulary for the properties of startup and of the goroutines *)

(** [c] is a decimal digit. *)
Definition is_digit (c : ascii) : bool :=
  andb (48 <=? strconv.code c) (strconv.code c <=? 57).

(** [c] is a hexadecimal digit. *)
Definition is_hex_digit (c : ascii) : bool := hex.fromHexChar c <=? 15.

Section Paths.

Context {Template : Type}.

(** The ways through startup, one per place where main can leave it, each
    with the events up to that place. *)
Inductive startup_path (W : World Template) : M Template Serving -> Prop :=
| path_env_missing (err : error) :
    godotenv_Load W = Some err ->
    startup_path W
      ([Fatal "Error loading .env file: %v" [VErr err]], inl (Exited 1))
| path_config_missing (err : error) :
    godotenv_Load W = None ->
    os_Open W = Some err ->
    startup_path W
      ([Stdout "Error opening file: %v\n" [VErr err]], inl (Exited 0))
| path_config_invalid (err : error) :
    godotenv_Load W = None ->
    os_Open W = None ->
    json_Decode W = Err err ->
    startup_path W
      ([Stdout "Error decoding JSON: %v\n" [VErr err]; CloseFile], inl (Exited 0))
| path_address_failure (cfg : BridgeConfig) (err : error) :
    godotenv_Load W = None ->
    os_Open W = None ->
    json_Decode W = Ok cfg ->
    fetchKaspaAccountFromPrivateKey (wallet W) (Network cfg) (TREASURY_PRIVATE_KEY W)
      = Err err ->
    startup_path W
      ([Log "%v %v\n" [VStr "Config : %v"; VConfig cfg];
        Fatal "failed to retrieve address from private key : %v" [VErr err]],
       inl (Exited 1))
| path_wait_time_rejected (cfg : BridgeConfig) (addr : string) (err : error) :
    reaches_wait_time W cfg addr ->
    strconv.Atoi (BlockWaitTimeSec cfg) = Err err ->
    startup_path W
      ([Log "%v %v\n" [VStr "Config : %v"; VConfig cfg];
        Log "%v %v\n" [VStr "Address : "; VStr addr];
        Stdout "%v %v\n" [VStr "Error: Invalid BlockWaitTimeSec : "; VErr err];
        CloseFile],
       inl (Exited 0))
| path_index_panics (cfg : BridgeConfig) (addr : string) (num : Z) :
    reaches_wait_time W cfg addr ->
    strconv.Atoi (BlockWaitTimeSec cfg) = Ok num ->
    RPCServer cfg = [] ->
    startup_path W
      ([Log "%v %v\n" [VStr "Config : %v"; VConfig cfg];
        Log "%v %v\n" [VStr "Address : "; VStr addr];
        CloseFile],
       inl (Panicked "runtime error: index out of range [0] with length 0"))
| path_dial_failure (cfg : BridgeConfig) (addr : string) (num : Z)
    (node : string) (rest : list string) (err : error) :
    reaches_wait_time W cfg addr ->
    strconv.Atoi (BlockWaitTimeSec cfg) = Ok num ->
    RPCServer cfg = node :: rest ->
    NewRPCClient W node = Some err ->
    startup_path W
      ([Log "%v %v\n" [VStr "Config : %v"; VConfig cfg];
        Log "%v %v\n" [VStr "Address : "; VStr addr];
        Dial node;
        Fatal "failed to initialize Kaspa API: %v" [VErr err]],
       inl (Exited 1))
| path_redis_unreachable (cfg : BridgeConfig) (addr : string) (num : Z)
    (node : string) (rest : list string) (err : error) :
    reaches_wait_time W cfg addr ->
    strconv.Atoi (BlockWaitTimeSec cfg) = Ok num ->
    RPCServer cfg = node :: rest ->
    NewRPCClient W node = None ->
    redis_Ping W (RedisAddress cfg) = Some err ->
    startup_path W
      ([Log "%v %v\n" [VStr "Config : %v"; VConfig cfg];
        Log "%v %v\n" [VStr "Address : "; VStr addr];
        Dial node;
        Ping (RedisAddress cfg);
        Fatal "could not connect to Redis: %v" [VErr err]],
       inl (Exited 1))
| path_serving (cfg : BridgeConfig) (addr : string) (num : Z)
    (node : string) (rest : list string) :
    reaches_wait_time W cfg addr ->
    strconv.Atoi (BlockWaitTimeSec cfg) = Ok num ->
    RPCServer cfg = node :: rest ->
    NewRPCClient W node = None ->
    redis_Ping W (RedisAddress cfg) = None ->
    startup_path W
      ([Log "%v %v\n" [VStr "Config : %v"; VConfig cfg];
        Log "%v %v\n" [VStr "Address : "; VStr addr];
        Dial node;
        Ping (RedisAddress cfg)],
       inr {| ksApi := {| address := node;
                          blockWaitTime := wrap_int64 (num * Second);
                          connected := true |};
              minerAddress := addr;
              config := cfg |}).

(** What Redis is handed during the [n] iterations that make the requests
    [first], ..., [first + n - 1]: the JSON of every template that was
    fetched and could be serialized, in the order of the requests. *)
Definition published_by (W : World Template) (sv : Serving) (first n : nat)
  : list (string * string) :=
  flat_map
    (fun k =>
       match GetBlockTemplate W (ksApi sv) (minerAddress sv) k with
       | Err _ => []
       | Ok t =>
           match json_Marshal W t with
           | Err _ => []
           | Ok js => [(RedisChannel (config sv), js)]
           end
       end)
    (seq first n).

(** What the poller may do, with the arguments it may do it with. *)
Definition poller_event_ok (W : World Template) (sv : Serving) (e : event Template)
  : Prop :=
  match e with
  | Fetch miningAddr extraData =>
      miningAddr = minerAddress sv /\ extraData = "Katpool"
  | Sleep d => d = blockWaitTime (ksApi sv)
  | Publish channel payload =>
      channel = RedisChannel (config sv) /\
      exists t, json_Marshal W t = Ok payload
  | Store _ | Marshal _ => True
  | Log format args =>
      (format = "error fetching block template: %v" /\
       exists cause,
         args = [VErr (Wrap cause "failed fetching new block template from kaspa")]) \/
      (format = "error serializing template to JSON: %v" /\
       exists err, args = [VErr err]) \/
      (format = "error publishing to Redis: %v" /\ exists err, args = [VErr err]) \/
      (format = "template published to Redis channel %s" /\
       args = [VStr (RedisChannel (config sv))])
  | Stdout _ _ | Fatal _ _ | CloseFile | CloseRedis | Dial _ | Ping _ => False
  end.

(** What the reporter may do. *)
Definition reporter_event_ok (e : event Template) : Prop :=
  e = Sleep (5 * Second) \/
  e = Stdout "%v\n" [VStr "No block template fetched yet."].

(** An entry of the bus log: on the configured channel, the JSON of a
    template that one of the first [n] requests returned. *)
Definition bus_entry_ok (W : World Template) (sv : Serving) (n : nat)
    (entry : string * string) : Prop :=
  fst entry = RedisChannel (config sv) /\
  exists k t,
    (k < n)%nat /\
    GetBlockTemplate W (ksApi sv) (minerAddress sv) k = Ok t /\
    json_Marshal W t = Ok (snd entry).

(** The world [W] with another treasury key in its environment. *)
Definition with_private_key (W : World Template) (key : string) : World Template :=
  {| godotenv_Load := godotenv_Load W;
     TREASURY_PRIVATE_KEY := key;
     os_Open := os_Open W;
     json_Decode := json_Decode W;
     wallet := wallet W;
     NewRPCClient := NewRPCClient W;
     redis_Ping := redis_Ping W;
     kaspad_GetBlockTemplate := kaspad_GetBlockTemplate W;
     json_Marshal := json_Marshal W;
     redis_Publish := redis_Publish W |}.

End Paths.

(** Further inputs for the runs of the model. *)
Module Fixtures.

(** Another key of 32 bytes. *)
Definition otherKey : string :=
  "00112233445566778899aabbccddeeffFFEEDDCCBBAA99887766554433221100".

(** A node that is down for the first request, then returns T1, then a
    template that json.Marshal rejects, then T1 again. *)
Definition script : list (result string) :=
  [Err Fake.timeout; Ok "T1"; Ok "unserializable"; Ok "T1"].

(** A working deployment with a wait time of five seconds, that node, and
    a Redis that refuses every Publish. *)
Definition deployment : World string :=
  Fake.deployment "5" script Fake.refusing.

End Fixtures.

(** * Properties *)

Lemma last_app_cons {A} (l l' : list A) (x d : A) :
  last (l ++ x :: l') d = last (x :: l') d.
Proof.
  induction l as [| y l IH].
  - reflexivity.
  - cbn [app]. rewrite <- IH. destruct (l ++ x :: l') eqn:E.
    + destruct l; discriminate E.
    + reflexivity.
Qed.

(** ** The poller, one loop iteration at a time *)

Section Poller.

Context {Template : Type}.
Variable W : World Template.
Variable sv : Serving.

Let wait : Z := blockWaitTime (ksApi sv).
Let channel : string := RedisChannel (config sv).
Let fetch (k : nat) : result Template :=
  GetBlockTemplate W (ksApi sv) (minerAddress sv) k.

Lemma until_loop_head_step (fuel : nat) (s : State Template) :
  until_loop_head W sv (S fuel) s =
    if at_loop_head (poll_step W sv s) then poll_step W sv s
    else until_loop_head W sv fuel (poll_step W sv s).
Proof. reflexivity. Qed.

(** One step of the poller inside [until_loop_head]. *)
Ltac advance :=
  rewrite until_loop_head_step;
  cbn [poll_step poller currentTemplate fetches publishes bus plog rlog].

Ltac decide_head := cbn [at_loop_head poller].

Ltac flatten_log := repeat rewrite <- app_assoc; cbn [app].

(** The iteration whose fetch fails: a log line and the sleep. *)
Lemma poll_cycle_fetch_error (s : State Template) (err : error) :
  poller s = AtFetch ->
  fetch (fetches s) = Err err ->
  poll_cycle W sv s =
    mkState AtFetch (currentTemplate s) (S (fetches s)) (publishes s) (bus s)
      (plog s ++ [Fetch (minerAddress sv) "Katpool";
                  Log "error fetching block template: %v" [VErr err];
                  Sleep wait])
      (rlog s).
Proof.
  intros Hpc Hfetch. unfold fetch in Hfetch.
  destruct s as [p c f n b pl rl]; cbn [poller fetches] in Hpc, Hfetch;
    cbn [poller currentTemplate fetches publishes bus plog rlog]; subst p.
  unfold poll_cycle.
  advance. rewrite Hfetch. decide_head.
  advance. decide_head.
  flatten_log. reflexivity.
Qed.

(** The iteration whose fetch succeeds and whose serialization fails:
    the template is stored, a log line is written, and the loop goes on. *)
Lemma poll_cycle_marshal_error (s : State Template) (t : Template) (err : error) :
  poller s = AtFetch ->
  fetch (fetches s) = Ok t ->
  json_Marshal W t = Err err ->
  poll_cycle W sv s =
    mkState AtFetch (Some t) (S (fetches s)) (publishes s) (bus s)
      (plog s ++ [Fetch (minerAddress sv) "Katpool";
                  Store t;
                  Marshal t;
                  Log "error serializing template to JSON: %v" [VErr err]])
      (rlog s).
Proof.
  intros Hpc Hfetch Hjson. unfold fetch in Hfetch.
  destruct s as [p c f n b pl rl]; cbn [poller fetches] in Hpc, Hfetch;
    cbn [poller currentTemplate fetches publishes bus plog rlog]; subst p.
  unfold poll_cycle.
  advance. rewrite Hfetch. decide_head.
  advance. decide_head.
  advance. rewrite Hjson. decide_head.
  flatten_log. reflexivity.
Qed.

(** The iteration that reaches Publish, whatever Redis answers. *)
Lemma poll_cycle_publish (s : State Template) (t : Template) (js : string) :
  poller s = AtFetch ->
  fetch (fetches s) = Ok t ->
  json_Marshal W t = Ok js ->
  poll_cycle W sv s =
    mkState AtFetch (Some t) (S (fetches s)) (S (publishes s))
      (bus s ++ [(channel, js)])
      (plog s ++ [Fetch (minerAddress sv) "Katpool";
                  Store t;
                  Marshal t;
                  Publish channel js;
                  match redis_Publish W (publishes s) channel js with
                  | Some err => Log "error publishing to Redis: %v" [VErr err]
                  | None => Log "template published to Redis channel %s" [VStr channel]
                  end;
                  Sleep wait])
      (rlog s).
Proof.
  intros Hpc Hfetch Hjson. unfold fetch in Hfetch.
  destruct s as [p c f n b pl rl]; cbn [poller fetches] in Hpc, Hfetch;
    cbn [poller currentTemplate fetches publishes bus plog rlog]; subst p.
  unfold poll_cycle.
  advance. rewrite Hfetch. decide_head.
  advance. decide_head.
  advance. rewrite Hjson. decide_head.
  advance. decide_head.
  advance. decide_head.
  flatten_log. reflexivity.
Qed.

(** The three ways through the loop body. *)
Lemma iteration_cases (s : State Template) :
  (exists err, fetch (fetches s) = Err err) \/
  (exists t err, fetch (fetches s) = Ok t /\ json_Marshal W t = Err err) \/
  (exists t js, fetch (fetches s) = Ok t /\ json_Marshal W t = Ok js).
Proof.
  destruct (fetch (fetches s)) as [t | err] eqn:Hfetch.
  - destruct (json_Marshal W t) as [js | err] eqn:Hjson.
    + right. right. exists t, js. split; [reflexivity | exact Hjson].
    + right. left. exists t, err. split; [reflexivity | exact Hjson].
  - left. exists err. reflexivity.
Qed.

(** An iteration always comes back to the top of the loop. *)
Lemma poll_cycle_returns (s : State Template) :
  poller s = AtFetch -> poller (poll_cycle W sv s) = AtFetch.
Proof.
  intros Hpc.
  destruct (iteration_cases s) as [[err Hf] | [(t & err & Hf & Hj) | (t & js & Hf & Hj)]].
  - rewrite (poll_cycle_fetch_error s err Hpc Hf). reflexivity.
  - rewrite (poll_cycle_marshal_error s t err Hpc Hf Hj). reflexivity.
  - rewrite (poll_cycle_publish s t js Hpc Hf Hj). reflexivity.
Qed.

Lemma poll_cycles_S (n : nat) (s : State Template) :
  poll_cycles W sv (S n) s = poll_cycle W sv (poll_cycles W sv n s).
Proof. reflexivity. Qed.

Lemma poll_cycles_returns (n : nat) (s : State Template) :
  poller s = AtFetch -> poller (poll_cycles W sv n s) = AtFetch.
Proof.
  intros Hpc. induction n as [| n IH].
  - exact Hpc.
  - rewrite poll_cycles_S. apply poll_cycle_returns. exact IH.
Qed.

(** An iteration makes exactly one request to the node. *)
Lemma poll_cycle_fetches (s : State Template) :
  poller s = AtFetch -> fetches (poll_cycle W sv s) = S (fetches s).
Proof.
  intros Hpc.
  destruct (iteration_cases s) as [[err Hf] | [(t & err & Hf & Hj) | (t & js & Hf & Hj)]].
  - rewrite (poll_cycle_fetch_error s err Hpc Hf). reflexivity.
  - rewrite (poll_cycle_marshal_error s t err Hpc Hf Hj). reflexivity.
  - rewrite (poll_cycle_publish s t js Hpc Hf Hj). reflexivity.
Qed.

(** The last action of an iteration is the sleep of the configured wait
    time, unless serialization failed: then it is the log line. *)
Lemma poll_cycle_last_action (s : State Template) :
  poller s = AtFetch ->
  last (plog (poll_cycle W sv s)) (Sleep 0) =
    match fetch (fetches s) with
    | Err _ => Sleep wait
    | Ok t =>
        match json_Marshal W t with
        | Ok _ => Sleep wait
        | Err err => Log "error serializing template to JSON: %v" [VErr err]
        end
    end.
Proof.
  intros Hpc.
  destruct (iteration_cases s) as [[err Hf] | [(t & err & Hf & Hj) | (t & js & Hf & Hj)]].
  - rewrite (poll_cycle_fetch_error s err Hpc Hf), Hf. cbn [plog].
    rewrite last_app_cons. reflexivity.
  - rewrite (poll_cycle_marshal_error s t err Hpc Hf Hj), Hf, Hj. cbn [plog].
    rewrite last_app_cons. reflexivity.
  - rewrite (poll_cycle_publish s t js Hpc Hf Hj), Hf, Hj. cbn [plog].
    rewrite last_app_cons. reflexivity.
Qed.

(** ** The stored template *)

Lemma last_fetched_step (k : nat) :
  last_fetched W sv (S k) =
    match fetch k with
    | Ok t => Some t
    | Err _ => last_fetched W sv k
    end.
Proof. reflexivity. Qed.

Lemma initial_invariant : cache_invariant W sv initial.
Proof. reflexivity. Qed.

Lemma poll_step_invariant (s : State Template) :
  cache_invariant W sv s -> cache_invariant W sv (poll_step W sv s).
Proof.
  destruct s as [p c f n b pl rl]. unfold cache_invariant, poll_step.
  cbn [poller currentTemplate fetches publishes bus plog rlog].
  destruct p as [| | t | t | t js |]; intros Inv.
  - (* the request *)
    destruct (GetBlockTemplate W (ksApi sv) (minerAddress sv) f) as [t | err] eqn:Hf;
      cbn [poller currentTemplate fetches plog pred];
      rewrite last_fetched_step; unfold fetch; rewrite Hf.
    + split; [reflexivity | exact Inv].
    + exact Inv.
  - exact Inv.
  - (* the store *)
    cbn [poller currentTemplate fetches plog].
    destruct Inv as [Hlast _]. rewrite Hlast.
    split; [reflexivity | split; [reflexivity | exists pl; reflexivity]].
  - (* json.Marshal *)
    destruct Inv as (Hlast & Hcur & before & Hlog).
    destruct (json_Marshal W t) as [js | err] eqn:Hjson;
      cbn [poller currentTemplate fetches plog].
    + split; [exact Hlast | split; [exact Hcur | split; [exact Hjson |]]].
      exists before. rewrite Hlog, <- app_assoc. reflexivity.
    + exact Hlast.
  - (* Publish *)
    cbn [poller currentTemplate fetches plog].
    destruct Inv as (Hlast & _). exact Hlast.
  - exact Inv.
Qed.

Lemma status_tick_invariant (s : State Template) :
  cache_invariant W sv s -> cache_invariant W sv (status_tick s).
Proof. destruct s as [p c f n b pl rl]. exact (fun Inv => Inv). Qed.

Lemma run_invariant (schedule : list goroutine) (s : State Template) :
  cache_invariant W sv s -> cache_invariant W sv (run W sv schedule s).
Proof.
  revert s. induction schedule as [| g schedule IH]; intros s Inv.
  - exact Inv.
  - cbn [run fold_left]. apply IH. destruct g.
    + apply poll_step_invariant. exact Inv.
    + apply status_tick_invariant. exact Inv.
Qed.

(** Only the store of the poller writes currentTemplate. *)
Lemma sys_step_cache (g : goroutine) (s : State Template) :
  currentTemplate (sys_step W sv g s) =
    match g, poller s with
    | Poller, AtStore t => Some t
    | _, _ => currentTemplate s
    end.
Proof.
  destruct g; [| reflexivity].
  unfold sys_step, poll_step.
  destruct (poller s) as [| | t | t | t js |]; try reflexivity.
  - destruct (GetBlockTemplate W (ksApi sv) (minerAddress sv) (fetches s)); reflexivity.
  - destruct (json_Marshal W t); reflexivity.
Qed.

(** C1.  Under every interleaving of the poller and the reporter, at every
    point after startup, currentTemplate is the template of the latest
    successful GetBlockTemplate request, and nil when none has succeeded;
    while a fetched template waits for the store (after the request has
    returned, before the mutex is taken) currentTemplate still answers
    for the requests before it.  No step but that store changes
    currentTemplate: a failed fetch leaves it as it is. *)
Theorem C1_cache_is_latest_fetched (schedule : list goroutine) :
  let s := run W sv schedule initial in
  match poller s with
  | AtStore template =>
      last_fetched W sv (fetches s) = Some template /\
      currentTemplate s = last_fetched W sv (pred (fetches s))
  | _ => currentTemplate s = last_fetched W sv (fetches s)
  end /\
  forall g : goroutine,
    currentTemplate (sys_step W sv g s) =
      match g, poller s with
      | Poller, AtStore template => Some template
      | _, _ => currentTemplate s
      end.
Proof.
  intros s. split.
  - pose proof (run_invariant schedule initial initial_invariant) as Inv.
    fold s in Inv. unfold cache_invariant in Inv.
    destruct (poller s); try exact Inv; destruct Inv as [Hlast _]; exact Hlast.
  - intros g. apply sys_step_cache.
Qed.

(** When json.Marshal or Publish is about to run, the template is already
    in currentTemplate, and the store is the action just before. *)
Lemma publish_sees_stored_template (schedule : list goroutine) :
  let s := run W sv schedule initial in
  match poller s with
  | AtMarshal t =>
      currentTemplate s = Some t /\ exists before, plog s = before ++ [Store t]
  | AtPublish t js =>
      currentTemplate s = Some t /\
      exists before, plog s = before ++ [Store t; Marshal t]
  | _ => True
  end.
Proof.
  intros s.
  pose proof (run_invariant schedule initial initial_invariant) as Inv.
  fold s in Inv. unfold cache_invariant in Inv.
  destruct (poller s); try exact I.
  - destruct Inv as (_ & Hcur & Hlog). split; assumption.
  - destruct Inv as (_ & Hcur & _ & Hlog). split; assumption.
Qed.

(** C2.  In an iteration whose fetch succeeds with [t], the store of [t]
    comes right after the request and before json.Marshal and Publish, and
    at the end of the iteration currentTemplate is [t], whether
    serialization fails, Publish fails, or both succeed. *)
Theorem C2_publish_failure_isolation (s : State Template) (t : Template) :
  poller s = AtFetch ->
  fetch (fetches s) = Ok t ->
  currentTemplate (poll_cycle W sv s) = Some t /\
  plog (poll_cycle W sv s) =
    plog s ++
      [Fetch (minerAddress sv) "Katpool"; Store t; Marshal t] ++
      match json_Marshal W t with
      | Err err => [Log "error serializing template to JSON: %v" [VErr err]]
      | Ok js =>
          [Publish channel js;
           match redis_Publish W (publishes s) channel js with
           | Some err => Log "error publishing to Redis: %v" [VErr err]
           | None => Log "template published to Redis channel %s" [VStr channel]
           end;
           Sleep wait]
      end.
Proof.
  intros Hpc Hfetch.
  destruct (json_Marshal W t) as [js | err] eqn:Hjson.
  - rewrite (poll_cycle_publish s t js Hpc Hfetch Hjson). split; reflexivity.
  - rewrite (poll_cycle_marshal_error s t err Hpc Hfetch Hjson). split; reflexivity.
Qed.

(** ** Retries *)

Lemma failed_cycles_log_step (errs : nat -> error) (n : nat) :
  @failed_cycles_log Template sv errs (S n) =
    failed_cycles_log sv errs n ++
      [Fetch (minerAddress sv) "Katpool";
       Log "error fetching block template: %v"
         [VErr (Wrap (errs n) "failed fetching new block template from kaspa")];
       Sleep wait].
Proof.
  unfold failed_cycles_log. rewrite seq_S, flat_map_app. cbn [flat_map Nat.add].
  rewrite app_nil_r. reflexivity.
Qed.

(** [n] requests in a row fail: [n] iterations, each of a request, a log
    line and the sleep, and nothing else changes. *)
Lemma failed_cycles (errs : nat -> error) (n : nat) (s0 : State Template) :
  poller s0 = AtFetch ->
  (forall k, (k < n)%nat ->
     kaspad_GetBlockTemplate W (minerAddress sv) (fetches s0 + k) = Err (errs k)) ->
  poll_cycles W sv n s0 =
    mkState AtFetch (currentTemplate s0) (fetches s0 + n) (publishes s0) (bus s0)
      (plog s0 ++ failed_cycles_log sv errs n) (rlog s0).
Proof.
  intros Hpc. induction n as [| n IH]; intros Herrs.
  - destruct s0 as [p c f m b pl rl]. cbn in Hpc |- *. subst p.
    rewrite Nat.add_0_r, app_nil_r. reflexivity.
  - rewrite poll_cycles_S.
    rewrite IH by (intros k Hk; apply Herrs; lia).
    rewrite (poll_cycle_fetch_error _
               (Wrap (errs n) "failed fetching new block template from kaspa")).
    + cbn [poller currentTemplate fetches publishes bus plog rlog].
      rewrite failed_cycles_log_step, <- app_assoc, Nat.add_succ_r. reflexivity.
    + reflexivity.
    + unfold fetch, GetBlockTemplate. cbn [fetches].
      rewrite (Herrs n) by lia. reflexivity.
Qed.

(** C3.  If the node fails the next [n] requests and answers the one after
    with [t], the poller goes through exactly [n] iterations of request,
    log line and sleep of the configured wait time, the same wait each
    time, for every [n]; the iteration after them stores [t]. *)
Theorem C3_retry_liveness (errs : nat -> error) (n : nat) (t : Template)
    (s0 : State Template) :
  poller s0 = AtFetch ->
  (forall k, (k < n)%nat ->
     kaspad_GetBlockTemplate W (minerAddress sv) (fetches s0 + k) = Err (errs k)) ->
  kaspad_GetBlockTemplate W (minerAddress sv) (fetches s0 + n) = Ok t ->
  let s := poll_cycles W sv n s0 in
  poller s = AtFetch /\
  fetches s = (fetches s0 + n)%nat /\
  currentTemplate s = currentTemplate s0 /\
  bus s = bus s0 /\
  plog s = plog s0 ++ failed_cycles_log sv errs n /\
  currentTemplate (poll_cycle W sv s) = Some t /\
  exists rest,
    plog (poll_cycle W sv s) =
      plog s ++ Fetch (minerAddress sv) "Katpool" :: Store t :: rest.
Proof.
  intros Hpc Herrs Hok s. subst s.
  rewrite (failed_cycles errs n s0 Hpc Herrs).
  cbn [poller currentTemplate fetches publishes bus plog rlog].
  repeat (split; [reflexivity |]).
  set (s := mkState _ _ _ _ _ _ _).
  assert (Hs : poller s = AtFetch) by reflexivity.
  assert (Hf : fetch (fetches s) = Ok t).
  { unfold fetch, GetBlockTemplate. cbn [s fetches]. rewrite Hok. reflexivity. }
  destruct (json_Marshal W t) as [js | err] eqn:Hjson.
  - rewrite (poll_cycle_publish s t js Hs Hf Hjson). split; [reflexivity |].
    eexists. reflexivity.
  - rewrite (poll_cycle_marshal_error s t err Hs Hf Hjson). split; [reflexivity |].
    eexists. reflexivity.
Qed.

(** ** Two iterations *)

(** C7.  The node answers the first request with [T1] and the second with
    [T2], both serializable: after two iterations currentTemplate is [T2]
    and Redis has been handed the JSON of [T1], then the JSON of [T2], on
    the configured channel. *)
Theorem C7_two_cycles (T1 T2 : Template) (j1 j2 : string) :
  kaspad_GetBlockTemplate W (minerAddress sv) 0 = Ok T1 ->
  kaspad_GetBlockTemplate W (minerAddress sv) 1 = Ok T2 ->
  json_Marshal W T1 = Ok j1 ->
  json_Marshal W T2 = Ok j2 ->
  let s := poll_cycles W sv 2 initial in
  currentTemplate s = Some T2 /\
  bus s = [(channel, j1); (channel, j2)] /\
  poller s = AtFetch.
Proof.
  intros H1 H2 Hj1 Hj2 s. subst s.
  rewrite !poll_cycles_S. change (poll_cycles W sv 0 initial) with (@initial Template).
  assert (F1 : fetch (fetches (@initial Template)) = Ok T1).
  { unfold fetch, GetBlockTemplate. cbn [initial fetches]. rewrite H1. reflexivity. }
  rewrite (poll_cycle_publish initial T1 j1 eq_refl F1 Hj1).
  set (s1 := mkState _ _ _ _ _ _ _).
  assert (F2 : fetch (fetches s1) = Ok T2).
  { unfold fetch, GetBlockTemplate. cbn [s1 initial fetches]. rewrite H2. reflexivity. }
  rewrite (poll_cycle_publish s1 T2 j2 eq_refl F2 Hj2).
  repeat split; reflexivity.
Qed.

(** ** The reporter *)

Lemma same_poller_refl (s : State Template) : same_poller s s.
Proof. repeat split. Qed.

Lemma poll_step_same_poller (s1 s2 : State Template) :
  same_poller s1 s2 -> same_poller (poll_step W sv s1) (poll_step W sv s2).
Proof.
  destruct s1 as [p1 c1 f1 n1 b1 pl1 rl1], s2 as [p2 c2 f2 n2 b2 pl2 rl2].
  unfold same_poller. cbn [poller currentTemplate fetches publishes bus plog].
  intros (Hp & Hc & Hf & Hn & Hb & Hl). subst p2 c2 f2 n2 b2 pl2.
  unfold poll_step. cbn [poller currentTemplate fetches publishes bus plog rlog].
  destruct p1 as [| | t | t | t js |]; try (repeat split; reflexivity).
  - destruct (GetBlockTemplate W (ksApi sv) (minerAddress sv) f1);
      repeat split; reflexivity.
  - destruct (json_Marshal W t); repeat split; reflexivity.
Qed.

Lemma status_tick_same_poller (s1 s2 : State Template) :
  same_poller s1 s2 -> same_poller (status_tick s1) s2.
Proof. destruct s1, s2. exact (fun H => H). Qed.

(** The reporter does not interfere: what the poller does and stores under
    a schedule is what it does and stores when the steps of the reporter
    are left out. *)
Lemma reporter_does_not_interfere (schedule : list goroutine) (s1 s2 : State Template) :
  same_poller s1 s2 ->
  same_poller (run W sv schedule s1) (run W sv (poller_steps schedule) s2).
Proof.
  revert s1 s2. induction schedule as [| g schedule IH]; intros s1 s2 Hsame.
  - exact Hsame.
  - destruct g; cbn [poller_steps filter run fold_left sys_step].
    + apply IH. apply poll_step_same_poller. exact Hsame.
    + apply IH. apply status_tick_same_poller. exact Hsame.
Qed.

(** C8.  An iteration of the reporter sleeps five seconds and then prints
    the line that no template was fetched yet when currentTemplate is nil,
    and nothing when a template is stored; it changes neither
    currentTemplate nor anything of the poller, and makes no request to
    the node and no call to Redis. *)
Theorem C8_status_tick (s : State Template) :
  rlog (status_tick s) =
    rlog s ++ Sleep (5 * Second) ::
      match currentTemplate s with
      | Some _ => []
      | None => [Stdout "%v\n" [VStr "No block template fetched yet."]]
      end /\
  currentTemplate (status_tick s) = currentTemplate s /\
  poller (status_tick s) = poller s /\
  fetches (status_tick s) = fetches s /\
  publishes (status_tick s) = publishes s /\
  bus (status_tick s) = bus s /\
  plog (status_tick s) = plog s.
Proof. repeat split; reflexivity. Qed.

End Poller.

(** ** Startup *)

Section Startup.

Context {Template : Type}.
Variable W : World Template.

Ltac unfold_startup :=
  unfold startup, log_Fatalf, main_return, panic, index0, NewKaspaAPI.

Ltac reduce_startup :=
  cbn [bind ret emit stop run_deferred app fst snd].

Lemma startup_env_missing (err : error) :
  godotenv_Load W = Some err ->
  startup W = ([Fatal "Error loading .env file: %v" [VErr err]], inl (Exited 1)).
Proof. intros H. unfold_startup. rewrite H. reflexivity. Qed.

Lemma startup_config_missing (err : error) :
  godotenv_Load W = None ->
  os_Open W = Some err ->
  startup W = ([Stdout "Error opening file: %v\n" [VErr err]], inl (Exited 0)).
Proof. intros H1 H2. unfold_startup. rewrite H1, H2. reflexivity. Qed.

Lemma startup_config_invalid (err : error) :
  godotenv_Load W = None ->
  os_Open W = None ->
  json_Decode W = Err err ->
  startup W =
    ([Stdout "Error decoding JSON: %v\n" [VErr err]; CloseFile], inl (Exited 0)).
Proof. intros H1 H2 H3. unfold_startup. rewrite H1, H2, H3. reflexivity. Qed.

Lemma startup_address_failure (cfg : BridgeConfig) (err : error) :
  godotenv_Load W = None ->
  os_Open W = None ->
  json_Decode W = Ok cfg ->
  fetchKaspaAccountFromPrivateKey (wallet W) (Network cfg) (TREASURY_PRIVATE_KEY W)
    = Err err ->
  startup W =
    ([Log "%v %v\n" [VStr "Config : %v"; VConfig cfg];
      Fatal "failed to retrieve address from private key : %v" [VErr err]],
     inl (Exited 1)).
Proof.
  intros H1 H2 H3 H4. unfold_startup. rewrite H1, H2, H3. reduce_startup.
  rewrite H4. reflexivity.
Qed.

Lemma startup_wait_time_rejected (cfg : BridgeConfig) (addr : string) (err : error) :
  reaches_wait_time W cfg addr ->
  strconv.Atoi (BlockWaitTimeSec cfg) = Err err ->
  startup W =
    ([Log "%v %v\n" [VStr "Config : %v"; VConfig cfg];
      Log "%v %v\n" [VStr "Address : "; VStr addr];
      Stdout "%v %v\n" [VStr "Error: Invalid BlockWaitTimeSec : "; VErr err];
      CloseFile],
     inl (Exited 0)).
Proof.
  intros (H1 & H2 & H3 & H4) H5. unfold_startup. rewrite H1, H2, H3. reduce_startup.
  rewrite H4. reduce_startup. rewrite H5. reflexivity.
Qed.

Lemma startup_index_panics (cfg : BridgeConfig) (addr : string) (num : Z) :
  reaches_wait_time W cfg addr ->
  strconv.Atoi (BlockWaitTimeSec cfg) = Ok num ->
  RPCServer cfg = [] ->
  startup W =
    ([Log "%v %v\n" [VStr "Config : %v"; VConfig cfg];
      Log "%v %v\n" [VStr "Address : "; VStr addr];
      CloseFile],
     inl (Panicked "runtime error: index out of range [0] with length 0")).
Proof.
  intros (H1 & H2 & H3 & H4) H5 H6. unfold_startup. rewrite H1, H2, H3. reduce_startup.
  rewrite H4. reduce_startup. rewrite H5. reduce_startup. rewrite H6. reflexivity.
Qed.

Lemma startup_dial_failure (cfg : BridgeConfig) (addr : string) (num : Z)
    (node : string) (rest : list string) (err : error) :
  reaches_wait_time W cfg addr ->
  strconv.Atoi (BlockWaitTimeSec cfg) = Ok num ->
  RPCServer cfg = node :: rest ->
  NewRPCClient W node = Some err ->
  startup W =
    ([Log "%v %v\n" [VStr "Config : %v"; VConfig cfg];
      Log "%v %v\n" [VStr "Address : "; VStr addr];
      Dial node;
      Fatal "failed to initialize Kaspa API: %v" [VErr err]],
     inl (Exited 1)).
Proof.
  intros (H1 & H2 & H3 & H4) H5 H6 H7. unfold_startup. rewrite H1, H2, H3.
  reduce_startup. rewrite H4. reduce_startup. rewrite H5. reduce_startup.
  rewrite H6. reduce_startup. rewrite H7. reflexivity.
Qed.

Lemma startup_redis_unreachable (cfg : BridgeConfig) (addr : string) (num : Z)
    (node : string) (rest : list string) (err : error) :
  reaches_wait_time W cfg addr ->
  strconv.Atoi (BlockWaitTimeSec cfg) = Ok num ->
  RPCServer cfg = node :: rest ->
  NewRPCClient W node = None ->
  redis_Ping W (RedisAddress cfg) = Some err ->
  startup W =
    ([Log "%v %v\n" [VStr "Config : %v"; VConfig cfg];
      Log "%v %v\n" [VStr "Address : "; VStr addr];
      Dial node;
      Ping (RedisAddress cfg);
      Fatal "could not connect to Redis: %v" [VErr err]],
     inl (Exited 1)).
Proof.
  intros (H1 & H2 & H3 & H4) H5 H6 H7 H8. unfold_startup. rewrite H1, H2, H3.
  reduce_startup. rewrite H4. reduce_startup. rewrite H5. reduce_startup.
  rewrite H6. reduce_startup. rewrite H7. reduce_startup. rewrite H8. reflexivity.
Qed.

Lemma startup_serving (cfg : BridgeConfig) (addr : string) (num : Z)
    (node : string) (rest : list string) :
  reaches_wait_time W cfg addr ->
  strconv.Atoi (BlockWaitTimeSec cfg) = Ok num ->
  RPCServer cfg = node :: rest ->
  NewRPCClient W node = None ->
  redis_Ping W (RedisAddress cfg) = None ->
  startup W =
    ([Log "%v %v\n" [VStr "Config : %v"; VConfig cfg];
      Log "%v %v\n" [VStr "Address : "; VStr addr];
      Dial node;
      Ping (RedisAddress cfg)],
     inr {| ksApi := {| address := node;
                        blockWaitTime := wrap_int64 (num * Second);
                        connected := true |};
            minerAddress := addr;
            config := cfg |}).
Proof.
  intros (H1 & H2 & H3 & H4) H5 H6 H7 H8. unfold_startup. rewrite H1, H2, H3.
  reduce_startup. rewrite H4. reduce_startup. rewrite H5. reduce_startup.
  rewrite H6. reduce_startup. rewrite H7. reduce_startup. rewrite H8. reflexivity.
Qed.

(** However startup ends the process, it is after a message, and the
    exit status follows the call that printed it: 1 after log.Fatalf, 0
    after a print and [return]; the only other end is the panic of
    [config.RPCServer[0]] on an empty list, which comes without a message
    of the program. *)
Lemma startup_end (tr : list (event Template)) (o : outcome) :
  startup W = (tr, inl o) ->
  (exists format args, last_message tr = Some (Fatal format args) /\ o = Exited 1) \/
  (exists format args, last_message tr = Some (Stdout format args) /\ o = Exited 0) \/
  (last_message tr = None /\
   o = Panicked "runtime error: index out of range [0] with length 0" /\
   exists cfg, json_Decode W = Ok cfg /\ RPCServer cfg = []).
Proof.
  intros Hend.
  destruct (godotenv_Load W) as [err |] eqn:H1.
  { rewrite (startup_env_missing err H1) in Hend. inversion Hend; subst.
    left. eexists _, _. split; reflexivity. }
  destruct (os_Open W) as [err |] eqn:H2.
  { rewrite (startup_config_missing err H1 H2) in Hend. inversion Hend; subst.
    right. left. eexists _, _. split; reflexivity. }
  destruct (json_Decode W) as [cfg | err] eqn:H3.
  2:{ rewrite (startup_config_invalid err H1 H2 H3) in Hend. inversion Hend; subst.
      right. left. eexists _, _. split; reflexivity. }
  destruct (fetchKaspaAccountFromPrivateKey (wallet W) (Network cfg)
              (TREASURY_PRIVATE_KEY W)) as [addr | err] eqn:H4.
  2:{ rewrite (startup_address_failure cfg err H1 H2 H3 H4) in Hend.
      inversion Hend; subst. left. eexists _, _. split; reflexivity. }
  assert (Hreach : reaches_wait_time W cfg addr) by (repeat split; assumption).
  destruct (strconv.Atoi (BlockWaitTimeSec cfg)) as [num | err] eqn:H5.
  2:{ rewrite (startup_wait_time_rejected cfg addr err Hreach H5) in Hend.
      inversion Hend; subst. right. left. eexists _, _. split; reflexivity. }
  destruct (RPCServer cfg) as [| node rest] eqn:H6.
  { rewrite (startup_index_panics cfg addr num Hreach H5 H6) in Hend.
    inversion Hend; subst. right. right.
    split; [reflexivity | split; [reflexivity |]]. exists cfg. split; [reflexivity | exact H6]. }
  destruct (NewRPCClient W node) as [err |] eqn:H7.
  { rewrite (startup_dial_failure cfg addr num node rest err Hreach H5 H6 H7) in Hend.
    inversion Hend; subst. left. eexists _, _. split; reflexivity. }
  destruct (redis_Ping W (RedisAddress cfg)) as [err |] eqn:H8.
  { rewrite (startup_redis_unreachable cfg addr num node rest err Hreach H5 H6 H7 H8)
      in Hend.
    inversion Hend; subst. left. eexists _, _. split; reflexivity. }
  rewrite (startup_serving cfg addr num node rest Hreach H5 H6 H7 H8) in Hend.
  discriminate Hend.
Qed.

(** C6.  The wait time passes the check of startup exactly when
    strconv.Atoi parses it, whatever its sign: the parsed number of
    seconds becomes the wait time of the poller, and the next thing
    startup does is to dial the first node.  When Atoi rejects the value,
    startup ends the process without having dialled the node or pinged
    Redis. *)
Theorem C6_wait_time_validation (cfg : BridgeConfig) :
  json_Decode W = Ok cfg ->
  (forall err,
     strconv.Atoi (BlockWaitTimeSec cfg) = Err err ->
     attempts_network (fst (startup W)) = false /\
     exists o, snd (startup W) = inl o) /\
  (forall addr num node rest,
     reaches_wait_time W cfg addr ->
     strconv.Atoi (BlockWaitTimeSec cfg) = Ok num ->
     RPCServer cfg = node :: rest ->
     In (Dial node) (fst (startup W)) /\
     forall sv, snd (startup W) = inr sv ->
                blockWaitTime (ksApi sv) = wrap_int64 (num * Second)).
Proof.
  intros H3. split.
  - intros err H5.
    destruct (godotenv_Load W) as [e |] eqn:H1.
    { rewrite (startup_env_missing e H1). split; [reflexivity | eexists; reflexivity]. }
    destruct (os_Open W) as [e |] eqn:H2.
    { rewrite (startup_config_missing e H1 H2).
      split; [reflexivity | eexists; reflexivity]. }
    destruct (fetchKaspaAccountFromPrivateKey (wallet W) (Network cfg)
                (TREASURY_PRIVATE_KEY W)) as [addr | e] eqn:H4.
    2:{ rewrite (startup_address_failure cfg e H1 H2 H3 H4).
        split; [reflexivity | eexists; reflexivity]. }
    assert (Hreach : reaches_wait_time W cfg addr) by (repeat split; assumption).
    rewrite (startup_wait_time_rejected cfg addr err Hreach H5).
    split; [reflexivity | eexists; reflexivity].
  - intros addr num node rest Hreach H5 H6.
    destruct (NewRPCClient W node) as [e |] eqn:H7.
    { rewrite (startup_dial_failure cfg addr num node rest e Hreach H5 H6 H7).
      split; [cbn; tauto | intros sv Hsv; discriminate Hsv]. }
    destruct (redis_Ping W (RedisAddress cfg)) as [e |] eqn:H8.
    { rewrite (startup_redis_unreachable cfg addr num node rest e Hreach H5 H6 H7 H8).
      split; [cbn; tauto | intros sv Hsv; discriminate Hsv]. }
    rewrite (startup_serving cfg addr num node rest Hreach H5 H6 H7 H8).
    split; [cbn; tauto |]. intros sv Hsv. cbn [snd] in Hsv.
    inversion Hsv; subst. reflexivity.
Qed.

(** C9.  When startup gets as far as [config.RPCServer[0]], an empty node
    list makes it panic with an index out of range: no message of the
    program is printed and neither the node nor Redis is contacted.  With
    a first entry, that entry is dialled and startup does not panic. *)
Theorem C9_empty_node_list (cfg : BridgeConfig) (addr : string) (num : Z) :
  reaches_wait_time W cfg addr ->
  strconv.Atoi (BlockWaitTimeSec cfg) = Ok num ->
  (RPCServer cfg = [] ->
     snd (startup W) =
       inl (Panicked "runtime error: index out of range [0] with length 0") /\
     last_message (fst (startup W)) = None /\
     attempts_network (fst (startup W)) = false) /\
  (forall node rest,
     RPCServer cfg = node :: rest ->
     In (Dial node) (fst (startup W)) /\
     forall message, snd (startup W) <> inl (Panicked message)).
Proof.
  intros Hreach H5. split.
  - intros H6. rewrite (startup_index_panics cfg addr num Hreach H5 H6).
    repeat split; reflexivity.
  - intros node rest H6.
    destruct (NewRPCClient W node) as [e |] eqn:H7.
    { rewrite (startup_dial_failure cfg addr num node rest e Hreach H5 H6 H7).
      split; [cbn; tauto | intros message Hp; discriminate Hp]. }
    destruct (redis_Ping W (RedisAddress cfg)) as [e |] eqn:H8.
    { rewrite (startup_redis_unreachable cfg addr num node rest e Hreach H5 H6 H7 H8).
      split; [cbn; tauto | intros message Hp; discriminate Hp]. }
    rewrite (startup_serving cfg addr num node rest Hreach H5 H6 H7 H8).
    split; [cbn; tauto | intros message Hp; discriminate Hp].
Qed.

(** The goroutines run from the initial state with what startup built. *)
Lemma main_after_startup (schedule : list goroutine) (tr : list (event Template))
    (sv : Serving) :
  startup W = (tr, inr sv) ->
  main W schedule = (tr, inr (run W sv schedule initial)).
Proof. intros H. unfold main. rewrite H. reflexivity. Qed.

(** When startup ends the process, no goroutine runs. *)
Lemma main_without_startup (schedule : list goroutine) (tr : list (event Template))
    (o : outcome) :
  startup W = (tr, inl o) ->
  main W schedule = (tr, inl o).
Proof. intros H. unfold main. rewrite H. reflexivity. Qed.

End Startup.

(** ** The payout address *)

(** The calls that [fetchKaspaAccountFromPrivateKey] makes once the prefix
    is chosen: the key is decoded, the wallet derives the public key, and
    the prefix goes to util.NewAddressPublicKey and to util.DecodeAddress;
    the first error ends the function. *)
Lemma deriveAddress_calls (lib : KaspaWallet) (prefix : Bech32Prefix)
    (privateKeyHex : string) :
  deriveAddress lib prefix privateKeyHex =
    match hex.DecodeString privateKeyHex with
    | Err e => Err e
    | Ok privateKeyBytes =>
        match PublicKeyFromPrivateKey lib privateKeyBytes with
        | Err e => Err e
        | Ok publicKeybytes =>
            match NewAddressPublicKey lib publicKeybytes prefix with
            | Err e => Err e
            | Ok addressPubKey => DecodeAddress lib addressPubKey prefix
            end
        end
    end.
Proof.
  unfold deriveAddress.
  destruct (hex.DecodeString privateKeyHex) as [bytes | e]; [| reflexivity].
  destruct (PublicKeyFromPrivateKey lib bytes) as [pub | e]; [| reflexivity].
  destruct (NewAddressPublicKey lib pub prefix) as [s | e]; [| reflexivity].
  destruct (DecodeAddress lib s prefix); reflexivity.
Qed.

(** C10.  For every wallet, [fetchKaspaAccountFromPrivateKey] hands the
    testnet prefix to util.NewAddressPublicKey and to util.DecodeAddress
    when the network is testnet-10 or testnet-11, and the mainnet kaspa
    prefix for every other network string: its result is that of the
    wallet calls made with that prefix on the decoded key. *)
Theorem C10_address_prefix (lib : KaspaWallet) (network privateKeyHex : string) :
  (network = "testnet-10" \/ network = "testnet-11" ->
   fetchKaspaAccountFromPrivateKey lib network privateKeyHex =
     match hex.DecodeString privateKeyHex with
     | Err e => Err e
     | Ok privateKeyBytes =>
         match PublicKeyFromPrivateKey lib privateKeyBytes with
         | Err e => Err e
         | Ok publicKeybytes =>
             match NewAddressPublicKey lib publicKeybytes Bech32PrefixKaspaTest with
             | Err e => Err e
             | Ok addressPubKey =>
                 DecodeAddress lib addressPubKey Bech32PrefixKaspaTest
             end
         end
     end) /\
  (network <> "testnet-10" -> network <> "testnet-11" ->
   fetchKaspaAccountFromPrivateKey lib network privateKeyHex =
     match hex.DecodeString privateKeyHex with
     | Err e => Err e
     | Ok privateKeyBytes =>
         match PublicKeyFromPrivateKey lib privateKeyBytes with
         | Err e => Err e
         | Ok publicKeybytes =>
             match NewAddressPublicKey lib publicKeybytes Bech32PrefixKaspa with
             | Err e => Err e
             | Ok addressPubKey =>
                 DecodeAddress lib addressPubKey Bech32PrefixKaspa
             end
         end
     end).
Proof.
  unfold fetchKaspaAccountFromPrivateKey, networkPrefix. cbv zeta. split.
  - intros [H | H]; subst network; cbn [String.eqb Ascii.eqb Bool.eqb orb];
      apply deriveAddress_calls.
  - intros H10 H11.
    apply String.eqb_neq in H10. apply String.eqb_neq in H11.
    rewrite H10, H11. cbn [orb]. apply deriveAddress_calls.
Qed.

(** ** The model on concrete inputs *)

Module Runs.

(** Startup in a working world hands [Fake.serving] to the goroutines. *)
Lemma startup_serves (script : list (result string)) (publish : nat -> option error) :
  startup (Fake.deployment "5" script publish) =
    ([Log "%v %v\n" [VStr "Config : %v"; VConfig (Fake.bridgeConfig "5" [Fake.node])];
      Log "%v %v\n" [VStr "Address : "; VStr "kaspa:qtreasury"];
      Dial Fake.node;
      Ping "127.0.0.1:6379"],
     inr Fake.serving).
Proof. reflexivity. Qed.

Lemma reaches (waitTime : string) (nodes : list string) (script : list (result string))
    (publish : nat -> option error) :
  reaches_wait_time (Fake.world (Fake.bridgeConfig waitTime nodes) script publish)
    (Fake.bridgeConfig waitTime nodes) "kaspa:qtreasury".
Proof. repeat split; reflexivity. Defined.

(** C2 on a run: the node answers with T1 and Redis refuses the Publish. *)
Lemma C2_witness :
  let W := Fake.deployment "5" [Ok "T1"] Fake.refusing in
  let s := poll_cycle W Fake.serving initial in
  currentTemplate s = Some "T1" /\
  plog s =
    [Fetch "kaspa:qtreasury" "Katpool";
     Store "T1";
     Marshal "T1";
     Publish "templates" "{T1}";
     Log "error publishing to Redis: %v" [VErr (ErrExternal "redis: connection refused")];
     Sleep (5 * Second)].
Proof.
  exact (C2_publish_failure_isolation (Fake.deployment "5" [Ok "T1"] Fake.refusing) Fake.serving
           initial "T1" eq_refl eq_refl).
Defined.

(** C3 on a run: two timeouts, then T1. *)
Lemma C3_witness :
  let W := Fake.deployment "5" [Err Fake.timeout; Err Fake.timeout; Ok "T1"]
             Fake.accepting in
  let s := poll_cycles W Fake.serving 2 initial in
  plog s = failed_cycles_log Fake.serving (fun _ => Fake.timeout) 2 /\
  currentTemplate s = None /\
  currentTemplate (poll_cycle W Fake.serving s) = Some "T1".
Proof.
  intros W s.
  assert (Herrs : forall k, (k < 2)%nat ->
            kaspad_GetBlockTemplate W (minerAddress Fake.serving)
              (fetches (@initial string) + k) = Err Fake.timeout).
  { intros k Hk. destruct k as [| [| k]]; [reflexivity | reflexivity | lia]. }
  destruct (C3_retry_liveness W Fake.serving (fun _ => Fake.timeout) 2 "T1" initial
              eq_refl Herrs eq_refl)
    as (_ & _ & Hcur & _ & Hlog & Hnext & _).
  split; [exact Hlog | split; [exact Hcur | exact Hnext]].
Defined.

(** C4 at a template that json.Marshal rejects: the iteration has no
    sleep in it, and the next request follows the log line at once. *)
Theorem C4_marshal_failure_skips_sleep :
  let W := Fake.deployment "5" [Ok "unserializable"; Ok "T2"] Fake.accepting in
  let s := poll_cycle W Fake.serving initial in
  plog s =
    [Fetch "kaspa:qtreasury" "Katpool";
     Store "unserializable";
     Marshal "unserializable";
     Log "error serializing template to JSON: %v"
       [VErr (ErrExternal "json: unsupported value")]] /\
  existsb is_sleep (plog s) = false /\
  poller s = AtFetch /\
  plog (poll_step W Fake.serving s) = plog s ++ [Fetch "kaspa:qtreasury" "Katpool"].
Proof. repeat split; reflexivity. Qed.

(** C5 at a missing config.json, at a config.json that does not decode
    and at a wait time that is not a number: startup prints its message
    and returns from main, so the exit status is 0. *)
Theorem C5_config_errors_exit_zero :
  let missing := Fake.world_with_config_file (Some Fake.no_such_file)
                   (Err Fake.no_such_file) in
  let invalid := Fake.world_with_config_file None
                   (Err (ErrExternal "unexpected end of JSON input")) in
  startup missing =
    ([Stdout "Error opening file: %v\n" [VErr Fake.no_such_file]], inl (Exited 0)) /\
  exit_status_of (startup missing) = Some 0 /\
  startup invalid =
    ([Stdout "Error decoding JSON: %v\n"
        [VErr (ErrExternal "unexpected end of JSON input")];
      CloseFile],
     inl (Exited 0)) /\
  exit_status_of (startup invalid) = Some 0 /\
  last_message (fst (startup (Fake.deployment "abc" [] Fake.accepting))) =
    Some (Stdout "%v %v\n"
            [VStr "Error: Invalid BlockWaitTimeSec : "; VErr (ErrSyntax "Atoi" "abc")]) /\
  exit_status_of (startup (Fake.deployment "abc" [] Fake.accepting)) = Some 0.
Proof. repeat split; reflexivity. Qed.

(** Against C6 as stated: the wait times -5 and 0 are not positive, and
    startup accepts both and goes on to the node and to Redis. *)
Lemma C6_counterexample :
  strconv.Atoi "-5" = Ok (-5) /\
  startup (Fake.deployment "-5" [] Fake.accepting) =
    ([Log "%v %v\n" [VStr "Config : %v"; VConfig (Fake.bridgeConfig "-5" [Fake.node])];
      Log "%v %v\n" [VStr "Address : "; VStr "kaspa:qtreasury"];
      Dial Fake.node;
      Ping "127.0.0.1:6379"],
     inr {| ksApi := {| address := Fake.node;
                        blockWaitTime := -5 * Second;
                        connected := true |};
            minerAddress := "kaspa:qtreasury";
            config := Fake.bridgeConfig "-5" [Fake.node] |}) /\
  strconv.Atoi "0" = Ok 0 /\
  attempts_network (fst (startup (Fake.deployment "0" [] Fake.accepting))) = true /\
  exit_status_of (startup (Fake.deployment "0" [] Fake.accepting)) = None.
Proof. repeat split; reflexivity. Qed.

(** C6 on runs: abc is rejected before any connection; -5 is accepted. *)
Lemma C6_witness :
  (attempts_network (fst (startup (Fake.deployment "abc" [] Fake.accepting))) = false /\
   exists o, snd (startup (Fake.deployment "abc" [] Fake.accepting)) = inl o) /\
  (In (Dial Fake.node) (fst (startup (Fake.deployment "-5" [] Fake.accepting))) /\
   forall sv, snd (startup (Fake.deployment "-5" [] Fake.accepting)) = inr sv ->
              blockWaitTime (ksApi sv) = wrap_int64 (-5 * Second)).
Proof.
  split.
  - exact (proj1 (C6_wait_time_validation (Fake.deployment "abc" [] Fake.accepting)
                    (Fake.bridgeConfig "abc" [Fake.node]) eq_refl)
             (ErrSyntax "Atoi" "abc") eq_refl).
  - exact (proj2 (C6_wait_time_validation (Fake.deployment "-5" [] Fake.accepting)
                    (Fake.bridgeConfig "-5" [Fake.node]) eq_refl)
             "kaspa:qtreasury" (-5) Fake.node []
             (reaches "-5" [Fake.node] [] Fake.accepting)
             eq_refl eq_refl).
Defined.

(** C7 on a run: T1, then T2. *)
Lemma C7_witness :
  let W := Fake.deployment "5" [Ok "T1"; Ok "T2"] Fake.accepting in
  let s := poll_cycles W Fake.serving 2 initial in
  currentTemplate s = Some "T2" /\
  bus s = [("templates", "{T1}"); ("templates", "{T2}")] /\
  poller s = AtFetch.
Proof.
  exact (C7_two_cycles (Fake.deployment "5" [Ok "T1"; Ok "T2"] Fake.accepting) Fake.serving
           "T1" "T2" "{T1}" "{T2}" eq_refl eq_refl eq_refl eq_refl).
Defined.

(** Against C8 as stated: with T1 stored, an iteration of the reporter
    sleeps and prints nothing. *)
Lemma C8_counterexample :
  let W := Fake.deployment "5" [Ok "T1"] Fake.accepting in
  let s := poll_cycle W Fake.serving initial in
  currentTemplate s = Some "T1" /\
  rlog (status_tick s) = [Sleep (5 * Second)] /\
  filter is_message (rlog (status_tick s)) = [].
Proof. repeat split; reflexivity. Qed.

(** C9 on runs: no node in the list, and one node in the list. *)
Lemma C9_witness :
  (snd (startup Fake.deployment_without_nodes) =
     inl (Panicked "runtime error: index out of range [0] with length 0") /\
   last_message (fst (startup Fake.deployment_without_nodes)) = None /\
   attempts_network (fst (startup Fake.deployment_without_nodes)) = false) /\
  (In (Dial Fake.node) (fst (startup (Fake.deployment "5" [] Fake.accepting))) /\
   forall message,
     snd (startup (Fake.deployment "5" [] Fake.accepting)) <> inl (Panicked message)).
Proof.
  split.
  - exact (proj1 (C9_empty_node_list Fake.deployment_without_nodes (Fake.bridgeConfig "5" [])
                    "kaspa:qtreasury" 5 (reaches "5" [] [] Fake.accepting) eq_refl)
             eq_refl).
  - exact (proj2 (C9_empty_node_list (Fake.deployment "5" [] Fake.accepting)
                    (Fake.bridgeConfig "5" [Fake.node])
                    "kaspa:qtreasury" 5 (reaches "5" [Fake.node] [] Fake.accepting) eq_refl)
             Fake.node [] eq_refl).
Defined.

(** C10 on runs: the address of the fake wallet starts with its prefix. *)
Lemma C10_witness :
  fetchKaspaAccountFromPrivateKey Fake.kaspaWallet "testnet-11" Fake.privateKey =
    Ok "kaspatest:qtreasury" /\
  fetchKaspaAccountFromPrivateKey Fake.kaspaWallet "testnet-12" Fake.privateKey =
    Ok "kaspa:qtreasury" /\
  fetchKaspaAccountFromPrivateKey Fake.kaspaWallet "devnet" Fake.privateKey =
    Ok "kaspa:qtreasury".
Proof.
  split; [| split].
  - rewrite (proj1 (C10_address_prefix Fake.kaspaWallet "testnet-11" Fake.privateKey)
               (or_intror eq_refl)).
    reflexivity.
  - rewrite (proj2 (C10_address_prefix Fake.kaspaWallet "testnet-12" Fake.privateKey));
      [reflexivity | discriminate | discriminate].
  - rewrite (proj2 (C10_address_prefix Fake.kaspaWallet "devnet" Fake.privateKey));
      [reflexivity | discriminate | discriminate].
Defined.

End Runs.

(** * Further properties *)

(** ** Arithmetic of int64 *)

Lemma wrap_int64_range (z : Z) : - 2 ^ 63 <= wrap_int64 z < 2 ^ 63.
Proof.
  unfold wrap_int64.
  change (2 ^ 63) with 9223372036854775808.
  change (2 ^ 64) with 18446744073709551616.
  pose proof (Z.mod_pos_bound (z + 9223372036854775808) 18446744073709551616).
  lia.
Qed.

Lemma wrap_int64_small (z : Z) : - 2 ^ 63 <= z < 2 ^ 63 -> wrap_int64 z = z.
Proof.
  unfold wrap_int64.
  change (2 ^ 63) with 9223372036854775808.
  change (2 ^ 64) with 18446744073709551616.
  intros H. rewrite Z.mod_small by lia. lia.
Qed.

(** ** The order of the steps of startup *)

Section StartupOrder.

Context {Template : Type}.
Variable W : World Template.

(** Startup follows one of its paths. *)
Lemma startup_follows_path : startup_path W (startup W).
Proof.
  destruct (godotenv_Load W) as [err |] eqn:H1.
  { rewrite (startup_env_missing W err H1). constructor. exact H1. }
  destruct (os_Open W) as [err |] eqn:H2.
  { rewrite (startup_config_missing W err H1 H2). constructor; assumption. }
  destruct (json_Decode W) as [cfg | err] eqn:H3.
  2:{ rewrite (startup_config_invalid W err H1 H2 H3). constructor; assumption. }
  destruct (fetchKaspaAccountFromPrivateKey (wallet W) (Network cfg)
              (TREASURY_PRIVATE_KEY W)) as [addr | err] eqn:H4.
  2:{ rewrite (startup_address_failure W cfg err H1 H2 H3 H4).
      constructor; assumption. }
  assert (Hreach : reaches_wait_time W cfg addr) by (repeat split; assumption).
  destruct (strconv.Atoi (BlockWaitTimeSec cfg)) as [num | err] eqn:H5.
  2:{ rewrite (startup_wait_time_rejected W cfg addr err Hreach H5).
      constructor; assumption. }
  destruct (RPCServer cfg) as [| node rest] eqn:H6.
  { rewrite (startup_index_panics W cfg addr num Hreach H5 H6).
    apply (path_index_panics W cfg addr num); assumption. }
  destruct (NewRPCClient W node) as [err |] eqn:H7.
  { rewrite (startup_dial_failure W cfg addr num node rest err Hreach H5 H6 H7).
    apply (path_dial_failure W cfg addr num node rest err); assumption. }
  destruct (redis_Ping W (RedisAddress cfg)) as [err |] eqn:H8.
  { rewrite (startup_redis_unreachable W cfg addr num node rest err Hreach H5 H6 H7 H8).
    apply (path_redis_unreachable W cfg addr num node rest err); assumption. }
  rewrite (startup_serving W cfg addr num node rest Hreach H5 H6 H7 H8).
  apply (path_serving W cfg addr num node rest); assumption.
Qed.

(** The path of a startup with a known result. *)
Lemma startup_path_of (r : M Template Serving) :
  startup W = r -> startup_path W r.
Proof. intros <-. apply startup_follows_path. Qed.

(** X1.  Startup reaches out to the network only after the .env file, the
    configuration, the payout address and the wait time have all been
    accepted, and then in a fixed order: it dials the first entry of the
    node list, and pings Redis only when the client of the node was
    built.  No other node of the list is dialled. *)
Theorem X1_validation_precedes_network :
  attempts_network (fst (startup W)) = true ->
  exists cfg addr num node rest,
    reaches_wait_time W cfg addr /\
    strconv.Atoi (BlockWaitTimeSec cfg) = Ok num /\
    RPCServer cfg = node :: rest /\
    filter is_network (fst (startup W)) =
      match NewRPCClient W node with
      | Some _ => [Dial node]
      | None => [Dial node; Ping (RedisAddress cfg)]
      end.
Proof.
  destruct startup_follows_path
    as [err H1 | err H1 H2 | err H1 H2 H3 | cfg err H1 H2 H3 H4
       | cfg addr err Hr H5 | cfg addr num Hr H5 H6
       | cfg addr num node rest err Hr H5 H6 H7
       | cfg addr num node rest err Hr H5 H6 H7 H8
       | cfg addr num node rest Hr H5 H6 H7 H8];
    cbn [fst attempts_network existsb is_network orb]; intros Hnet;
    try discriminate Hnet;
    exists cfg, addr, num, node, rest; rewrite H7;
    repeat split; try assumption; apply Hr.
Qed.

(** X2.  When startup hands over to the goroutines, every check has
    passed: the configuration they get is the decoded file, the miner
    address is the one derived from the treasury key, the client is
    connected to the first node of the list, Redis has answered the ping,
    and config.json has not been closed. *)
Theorem X2_serving_means_all_checks_passed (tr : list (event Template)) (sv : Serving) :
  startup W = (tr, inr sv) ->
  reaches_wait_time W (config sv) (minerAddress sv) /\
  (exists num,
     strconv.Atoi (BlockWaitTimeSec (config sv)) = Ok num /\
     blockWaitTime (ksApi sv) = wrap_int64 (num * Second)) /\
  (exists rest, RPCServer (config sv) = address (ksApi sv) :: rest) /\
  NewRPCClient W (address (ksApi sv)) = None /\
  redis_Ping W (RedisAddress (config sv)) = None /\
  connected (ksApi sv) = true /\
  tr = [Log "%v %v\n" [VStr "Config : %v"; VConfig (config sv)];
        Log "%v %v\n" [VStr "Address : "; VStr (minerAddress sv)];
        Dial (address (ksApi sv));
        Ping (RedisAddress (config sv))] /\
  ~ In CloseFile tr.
Proof.
  intros Hs. apply startup_path_of in Hs.
  inversion Hs as [ | | | | | | |
                   | cfg addr num node rest Hr H5 H6 H7 H8 Htr]; subst.
  cbn [config minerAddress ksApi address blockWaitTime connected].
  repeat split; try assumption; try apply Hr.
  - exists num. split; [assumption | reflexivity].
  - exists rest. assumption.
  - cbn [In]. intros [H | [H | [H | [H | []]]]]; discriminate H.
Qed.

(** X3.  The deferred close of config.json runs exactly when startup ends
    after the file was opened and not through log.Fatalf: on the returns
    for an undecodable file and for a bad wait time and on the panic, and
    never on an exit with status 1. *)
Theorem X3_deferred_close (tr : list (event Template)) (o : outcome) :
  startup W = (tr, inl o) ->
  (In CloseFile tr <-> os_Open W = None /\ o <> Exited 1).
Proof.
  intros Hs. apply startup_path_of in Hs.
  inversion Hs
    as [err H1 | err H1 H2 | err H1 H2 H3 | cfg err H1 H2 H3 H4
       | cfg addr err Hr H5 | cfg addr num Hr H5 H6
       | cfg addr num node rest err Hr H5 H6 H7
       | cfg addr num node rest err Hr H5 H6 H7 H8
       | ]; subst; cbn [In]; split;
    try (intros [_ Hne]; exfalso; apply Hne; reflexivity);
    try (intros Hin; exfalso;
         repeat (destruct Hin as [Hin | Hin]; [discriminate Hin |]); exact Hin).
  - intros [H _]. rewrite H2 in H. discriminate H.
  - intros _. split; [exact H2 | discriminate].
  - intros _. right. left. reflexivity.
  - intros _. split; [apply Hr | discriminate].
  - intros _. right. right. right. left. reflexivity.
  - intros _. split; [apply Hr | discriminate].
  - intros _. right. right. left. reflexivity.
Qed.


(** X5.  The wait time of the poller is the configured number of seconds
    taken modulo 2^64 into int64: it is that number of seconds exactly
    when the number lies between -9223372036 and 9223372036, and a
    different duration for every number outside. *)
Theorem X5_wait_time_overflow (tr : list (event Template)) (sv : Serving) :
  startup W = (tr, inr sv) ->
  exists num,
    strconv.Atoi (BlockWaitTimeSec (config sv)) = Ok num /\
    - 2 ^ 63 <= blockWaitTime (ksApi sv) < 2 ^ 63 /\
    (blockWaitTime (ksApi sv) = num * Second <->
     -9223372036 <= num <= 9223372036).
Proof.
  intros Hs. apply startup_path_of in Hs.
  inversion Hs as [ | | | | | | |
                   | cfg addr num node rest Hr H5 H6 H7 H8 Htr]; subst.
  cbn [config ksApi blockWaitTime].
  exists num. split; [assumption |]. split; [apply wrap_int64_range |].
  split.
  - intros Heq. pose proof (wrap_int64_range (num * Second)) as Hrange.
    rewrite Heq in Hrange. unfold Second in Hrange.
    change (2 ^ 63) with 9223372036854775808 in Hrange. lia.
  - intros Hnum. apply wrap_int64_small. unfold Second.
    change (2 ^ 63) with 9223372036854775808. lia.
Qed.

End StartupOrder.

(** ** The strings that strconv.Atoi accepts *)

Lemma code_range (c : ascii) : 0 <= strconv.code c < 256.
Proof.
  unfold strconv.code. pose proof (nat_ascii_bounded c). lia.
Qed.

Lemma string_length_list (s : string) :
  List.length (list_ascii_of_string s) = String.length s.
Proof. induction s as [| c s IH]; [reflexivity | cbn; rewrite IH; reflexivity]. Qed.

(** The fast path reads decimal digits only, and as many digits as the
    string has. *)
Lemma fastLoop_ok (s0 body : string) (acc n : Z) :
  strconv.fastLoop s0 body acc = Ok n ->
  0 <= acc ->
  (forall c, In c (list_ascii_of_string body) -> is_digit c = true) /\
  acc * 10 ^ Z.of_nat (String.length body) <= n
    < (acc + 1) * 10 ^ Z.of_nat (String.length body).
Proof.
  revert acc. induction body as [| c rest IH]; intros acc Hloop Hacc.
  - cbn in Hloop. inversion Hloop; subst. split.
    + intros c [].
    + cbn [String.length Z.of_nat]. rewrite Z.pow_0_r. lia.
  - cbn [strconv.fastLoop] in Hloop.
    pose proof (code_range c) as Hc.
    destruct ((strconv.code c - 48) mod 256 >? 9) eqn:Hch; [discriminate Hloop |].
    rewrite Z.gtb_ltb in Hch. apply Z.ltb_ge in Hch.
    assert (Hdigit : 48 <= strconv.code c <= 57).
    { destruct (Z_lt_dec (strconv.code c) 48) as [Hlt | Hge].
      - replace ((strconv.code c - 48) mod 256) with (strconv.code c + 208) in Hch.
        + lia.
        + apply (Z.mod_unique _ _ (-1)); lia.
      - rewrite Z.mod_small in Hch by lia. lia. }
    rewrite Z.mod_small in Hloop by lia.
    destruct (IH _ Hloop ltac:(lia)) as [Hall Hbound]. split.
    + intros d [Hd | Hd].
      * subst d. unfold is_digit. apply andb_true_intro. split; apply Z.leb_le; lia.
      * apply Hall. exact Hd.
    + cbn [String.length]. rewrite Nat2Z.inj_succ, Z.pow_succ_r by lia.
      set (P := 10 ^ Z.of_nat (String.length rest)) in *.
      assert (0 < P) by (apply Z.pow_pos_nonneg; lia).
      nia.
Qed.

(** The slow path reads decimal digits only. *)
Lemma parseUintLoop_ok (fn s0 body : string) (acc n : Z) :
  strconv.parseUintLoop fn s0 body acc = Ok n ->
  forall c, In c (list_ascii_of_string body) -> is_digit c = true.
Proof.
  revert acc. induction body as [| c rest IH]; intros acc Hloop d Hd.
  - destruct Hd.
  - cbn [strconv.parseUintLoop] in Hloop.
    destruct (andb (48 <=? strconv.code c) (strconv.code c <=? 57)) eqn:Hc;
      [| discriminate Hloop].
    destruct (acc >=? strconv.maxUint64 / 10 + 1); [discriminate Hloop |].
    cbv zeta in Hloop.
    destruct (orb _ _); [discriminate Hloop |].
    destruct Hd as [Hd | Hd].
    + subst d. exact Hc.
    + exact (IH _ Hloop d Hd).
Qed.

(** What Atoi accepts is a non-empty string of decimal digits after an
    optional sign, and what it returns fits in int64. *)
Lemma Atoi_ok (s : string) (n : Z) :
  strconv.Atoi s = Ok n ->
  - 2 ^ 63 <= n < 2 ^ 63 /\
  exists body,
    (s = body \/ s = String "+" body \/ s = String "-" body) /\
    body <> EmptyString /\
    forall c, In c (list_ascii_of_string body) -> is_digit c = true.
Proof.
  unfold strconv.Atoi. cbv zeta.
  destruct (andb (0 <? Z.of_nat (String.length s)) (Z.of_nat (String.length s) <? 19))
    eqn:Hfast.
  - (* the fast path *)
    apply andb_prop in Hfast. destruct Hfast as [_ Hlen]. apply Z.ltb_lt in Hlen.
    destruct s as [| c rest]; [discriminate |].
    set (signed := orb (Ascii.eqb c "-") (Ascii.eqb c "+")).
    set (body := if signed then rest else String c rest).
    destruct (andb signed (Z.of_nat (String.length body) <? 1)) eqn:Hempty;
      [discriminate |].
    destruct (strconv.fastLoop (String c rest) body 0) as [m | e] eqn:Hloop;
      [| discriminate].
    intros Hn. inversion Hn; subst n. clear Hn.
    destruct (fastLoop_ok _ _ _ _ Hloop ltac:(lia)) as [Hall Hbound].
    assert (Hbody : (String.length body <= 18)%nat).
    { subst body. destruct signed; cbn [String.length] in *; lia. }
    assert (Hm : 0 <= m < 10 ^ 18).
    { split; [lia |].
      apply Z.lt_le_trans with (1 := proj2 Hbound).
      rewrite Z.mul_1_l. apply Z.pow_le_mono_r; lia. }
    change (10 ^ 18) with 1000000000000000000 in Hm.
    change (2 ^ 63) with 9223372036854775808.
    split.
    + destruct (Ascii.eqb c "-"); lia.
    + exists body. split; [| split; [| exact Hall]].
      * subst body signed.
        destruct (Ascii.eqb_spec c "-") as [-> | _]; [right; right; reflexivity |].
        destruct (Ascii.eqb_spec c "+") as [-> | _]; [right; left; reflexivity |].
        left. reflexivity.
      * intros Hnil. rewrite Hnil in Hempty. cbn in Hempty.
        subst body. destruct signed; [discriminate Hempty | discriminate Hnil].
  - (* the slow path *)
    unfold strconv.ParseInt. destruct s as [| c rest]; [discriminate |].
    cbv zeta.
    set (signed := orb (Ascii.eqb c "+") (Ascii.eqb c "-")).
    set (body := if signed then rest else String c rest).
    destruct (strconv.ParseUint strconv.fnAtoi (String c rest) body) as [un | e] eqn:Hun;
      [| discriminate].
    destruct (andb (negb (Ascii.eqb c "-")) (un >=? 2 ^ 63)); [discriminate |].
    destruct (andb (Ascii.eqb c "-") (un >? 2 ^ 63)); [discriminate |].
    intros Hn. inversion Hn; subst n. clear Hn.
    split; [destruct (Ascii.eqb c "-"); apply wrap_int64_range |].
    exists body.
    unfold strconv.ParseUint in Hun.
    destruct body as [| b body'] eqn:Hbody; [discriminate Hun |].
    split; [| split; [discriminate |]].
    + subst signed.
      destruct (Ascii.eqb_spec c "+") as [-> | _].
      { cbn in Hbody. right. left. rewrite Hbody. reflexivity. }
      destruct (Ascii.eqb_spec c "-") as [-> | _].
      { cbn in Hbody. right. right. rewrite Hbody. reflexivity. }
      cbn in Hbody. left. exact Hbody.
    + exact (parseUintLoop_ok _ _ _ _ _ Hun).
Qed.

Section WaitTimeSyntax.

Context {Template : Type}.
Variable W : World Template.

(** X6.  Startup goes on to the network only when block_wait_time_seconds
    is a non-empty string of decimal digits after an optional sign: an
    empty value, spaces, a decimal point or a unit are all rejected. *)
Theorem X6_wait_time_syntax :
  attempts_network (fst (startup W)) = true ->
  exists cfg body,
    json_Decode W = Ok cfg /\
    (BlockWaitTimeSec cfg = body \/
     BlockWaitTimeSec cfg = String "+" body \/
     BlockWaitTimeSec cfg = String "-" body) /\
    body <> EmptyString /\
    forall c, In c (list_ascii_of_string body) -> is_digit c = true.
Proof.
  destruct (startup_follows_path W)
    as [err H1 | err H1 H2 | err H1 H2 H3 | cfg err H1 H2 H3 H4
       | cfg addr err Hr H5 | cfg addr num Hr H5 H6
       | cfg addr num node rest err Hr H5 H6 H7
       | cfg addr num node rest err Hr H5 H6 H7 H8
       | cfg addr num node rest Hr H5 H6 H7 H8];
    cbn [fst attempts_network existsb is_network orb]; intros Hnet;
    try discriminate Hnet;
    destruct (Atoi_ok _ _ H5) as (_ & body & Hshape & Hne & Hall);
    exists cfg, body; (split; [apply Hr | split; [exact Hshape | split; assumption]]).
Qed.

End WaitTimeSyntax.

(** ** The private key *)

(** Induction over a list two elements at a time, as hex.Decode reads it. *)
Lemma list_pair_ind {A} (P : list A -> Prop) :
  P [] ->
  (forall p, P [p]) ->
  (forall p q rest, P rest -> P (p :: q :: rest)) ->
  forall l, P l.
Proof.
  intros Hnil Hone Hpair.
  assert (Hboth : forall l, P l /\ forall x, P (x :: l)).
  { induction l as [| y l [IH1 IH2]].
    - split; [exact Hnil | exact Hone].
    - split; [apply IH2 | intros x; apply Hpair; exact IH1]. }
  intros l. apply Hboth.
Qed.

Lemma fromHexChar_range (c : ascii) :
  is_hex_digit c = true -> 0 <= hex.fromHexChar c <= 15.
Proof.
  unfold is_hex_digit, hex.fromHexChar. cbv zeta.
  destruct (andb (48 <=? strconv.code c) (strconv.code c <=? 57)) eqn:H1.
  { apply andb_prop in H1. destruct H1 as [Ha Hb].
    apply Z.leb_le in Ha. apply Z.leb_le in Hb. intros _. lia. }
  destruct (andb (97 <=? strconv.code c) (strconv.code c <=? 102)) eqn:H2.
  { apply andb_prop in H2. destruct H2 as [Ha Hb].
    apply Z.leb_le in Ha. apply Z.leb_le in Hb. intros _. lia. }
  destruct (andb (65 <=? strconv.code c) (strconv.code c <=? 70)) eqn:H3.
  { apply andb_prop in H3. destruct H3 as [Ha Hb].
    apply Z.leb_le in Ha. apply Z.leb_le in Hb. intros _. lia. }
  intros H. discriminate H.
Qed.

Lemma not_hex_gtb (c : ascii) :
  (hex.fromHexChar c >? 15) = negb (is_hex_digit c).
Proof.
  unfold is_hex_digit. rewrite Z.gtb_ltb, Z.ltb_antisym. reflexivity.
Qed.

(** Two hexadecimal digits make a byte. *)
Lemma byte_of_nibbles (a b : Z) :
  0 <= a <= 15 -> 0 <= b <= 15 -> 0 <= Z.lor (Z.shiftl a 4) b < 256.
Proof.
  intros Ha Hb. rewrite Z.shiftl_mul_pow2 by lia. change (2 ^ 4) with 16.
  assert (Hnonneg : 0 <= Z.lor (a * 16) b) by (apply Z.lor_nonneg; lia).
  split; [exact Hnonneg |].
  destruct (Z.eq_dec (Z.lor (a * 16) b) 0) as [-> | Hne]; [lia |].
  change 256 with (2 ^ 8). apply Z.log2_lt_pow2; [lia |].
  rewrite Z.log2_lor by lia. apply Z.max_lub_lt.
  - destruct (Z.eq_dec (a * 16) 0) as [-> | Hx]; [cbn; lia |].
    apply Z.log2_lt_pow2; [lia |]. change (2 ^ 8) with 256. lia.
  - destruct (Z.eq_dec b 0) as [-> | Hy]; [cbn; lia |].
    apply Z.log2_lt_pow2; [lia |]. change (2 ^ 8) with 256. lia.
Qed.

(** What hex.Decode accepts: an even number of hexadecimal digits, two for
    each byte of the result. *)
Lemma Decode_ok (src : list ascii) :
  forall bytes,
    hex.Decode src = Ok bytes ->
    List.length src = (2 * List.length bytes)%nat /\
    Forall (fun c => is_hex_digit c = true) src /\
    Forall (fun b => 0 <= b < 256) bytes.
Proof.
  induction src as [| p | p q rest IH] using list_pair_ind; intros bytes Hdec.
  - inversion Hdec; subst. repeat split; constructor.
  - cbn [hex.Decode] in Hdec. destruct (hex.fromHexChar p >? 15); discriminate Hdec.
  - cbn [hex.Decode] in Hdec. cbv zeta in Hdec. rewrite !not_hex_gtb in Hdec.
    destruct (is_hex_digit p) eqn:Hp; [| discriminate Hdec].
    destruct (is_hex_digit q) eqn:Hq; [| discriminate Hdec].
    cbn [negb] in Hdec.
    destruct (hex.Decode rest) as [tail | e] eqn:Hrest; [| discriminate Hdec].
    inversion Hdec; subst bytes. clear Hdec.
    destruct (IH tail eq_refl) as (Hlen & Hhex & Hbytes).
    split; [cbn [List.length]; lia |].
    split; [repeat constructor; assumption |].
    constructor; [| exact Hbytes].
    apply byte_of_nibbles; apply fromHexChar_range; assumption.
Qed.

(** What hex.Decode rejects: a character that is no hexadecimal digit, and
    otherwise an odd number of characters. *)
Lemma Decode_err (src : list ascii) :
  forall e,
    hex.Decode src = Err e ->
    (exists c, In c src /\ is_hex_digit c = false /\ e = InvalidByteError c) \/
    (e = ErrLength /\ Nat.odd (List.length src) = true /\
     Forall (fun c => is_hex_digit c = true) src).
Proof.
  induction src as [| p | p q rest IH] using list_pair_ind; intros e Hdec.
  - discriminate Hdec.
  - cbn [hex.Decode] in Hdec. rewrite not_hex_gtb in Hdec.
    destruct (is_hex_digit p) eqn:Hp; cbn [negb] in Hdec; inversion Hdec; subst e.
    + right. repeat split. constructor; [exact Hp | constructor].
    + left. exists p. repeat split; [left; reflexivity | exact Hp].
  - cbn [hex.Decode] in Hdec. cbv zeta in Hdec. rewrite !not_hex_gtb in Hdec.
    destruct (is_hex_digit p) eqn:Hp; cbn [negb] in Hdec.
    2:{ inversion Hdec; subst e. left. exists p.
        repeat split; [left; reflexivity | exact Hp]. }
    destruct (is_hex_digit q) eqn:Hq; cbn [negb] in Hdec.
    2:{ inversion Hdec; subst e. left. exists q.
        repeat split; [right; left; reflexivity | exact Hq]. }
    destruct (hex.Decode rest) as [tail | e'] eqn:Hrest; [discriminate Hdec |].
    inversion Hdec; subst e'. clear Hdec.
    destruct (IH e eq_refl) as [(c & Hin & Hc & He) | (He & Hodd & Hhex)].
    + left. exists c. repeat split; [right; right; exact Hin | exact Hc | exact He].
    + right. split; [exact He |]. split.
      * cbn [List.length]. rewrite Nat.odd_succ_succ. exact Hodd.
      * repeat constructor; assumption.
Qed.

(** X7.  When the payout address is derived, the treasury key was an even
    number of hexadecimal digits; the wallet got one byte for every two
    digits, and the prefix that encodes the address is the prefix that
    decodes it again. *)
Theorem X7_derived_address (lib : KaspaWallet) (network privateKeyHex addr : string) :
  fetchKaspaAccountFromPrivateKey lib network privateKeyHex = Ok addr ->
  exists privateKeyBytes publicKeybytes addressPubKey,
    hex.DecodeString privateKeyHex = Ok privateKeyBytes /\
    String.length privateKeyHex = (2 * List.length privateKeyBytes)%nat /\
    Forall (fun c => is_hex_digit c = true) (list_ascii_of_string privateKeyHex) /\
    Forall (fun b => 0 <= b < 256) privateKeyBytes /\
    PublicKeyFromPrivateKey lib privateKeyBytes = Ok publicKeybytes /\
    NewAddressPublicKey lib publicKeybytes (networkPrefix network) = Ok addressPubKey /\
    DecodeAddress lib addressPubKey (networkPrefix network) = Ok addr.
Proof.
  unfold fetchKaspaAccountFromPrivateKey, deriveAddress. cbv zeta.
  destruct (hex.DecodeString privateKeyHex) as [bytes | e] eqn:Hhex; [| discriminate].
  destruct (PublicKeyFromPrivateKey lib bytes) as [pub | e] eqn:Hpub; [| discriminate].
  destruct (NewAddressPublicKey lib pub (networkPrefix network)) as [s | e] eqn:Hnew;
    [| discriminate].
  destruct (DecodeAddress lib s (networkPrefix network)) as [a | e] eqn:Hdec;
    [| discriminate].
  intros Haddr. inversion Haddr; subst a. clear Haddr.
  destruct (Decode_ok _ _ Hhex) as (Hlen & Hdigits & Hbytes).
  rewrite string_length_list in Hlen.
  exists bytes, pub, s. repeat split; assumption.
Qed.

(** X8.  A treasury key with a character that is no hexadecimal digit, or
    with an odd number of characters, is refused with the error of
    encoding/hex, whatever the network and before the wallet is asked
    anything: the error names a character of the key that is no
    hexadecimal digit, or is the length error. *)
Theorem X8_malformed_key (privateKeyHex : string) :
  Nat.odd (String.length privateKeyHex) = true \/
  (exists c, In c (list_ascii_of_string privateKeyHex) /\ is_hex_digit c = false) ->
  exists e,
    ((exists c, In c (list_ascii_of_string privateKeyHex) /\
                is_hex_digit c = false /\ e = InvalidByteError c) \/
     e = ErrLength) /\
    forall lib network,
      fetchKaspaAccountFromPrivateKey lib network privateKeyHex = Err e.
Proof.
  intros Hbad.
  destruct (hex.DecodeString privateKeyHex) as [bytes | e] eqn:Hhex.
  - exfalso. destruct (Decode_ok _ _ Hhex) as (Hlen & Hdigits & _).
    rewrite string_length_list in Hlen.
    destruct Hbad as [Hodd | (c & Hin & Hc)].
    + rewrite Hlen, Nat.odd_mul in Hodd. discriminate Hodd.
    + rewrite Forall_forall in Hdigits. rewrite (Hdigits c Hin) in Hc. discriminate Hc.
  - exists e. split.
    + destruct (Decode_err _ _ Hhex) as [Hbyte | (He & _)]; [left | right]; assumption.
    + intros lib network.
      unfold fetchKaspaAccountFromPrivateKey, deriveAddress. rewrite Hhex. reflexivity.
Qed.

(** ** The goroutines over whole runs *)

Section WholeRuns.

Context {Template : Type}.
Variable W : World Template.
Variable sv : Serving.

Let fetch (k : nat) : result Template :=
  GetBlockTemplate W (ksApi sv) (minerAddress sv) k.

Lemma published_by_step (first n : nat) :
  published_by W sv first (S n) =
    published_by W sv first n ++
      match fetch (first + n) with
      | Err _ => []
      | Ok t =>
          match json_Marshal W t with
          | Err _ => []
          | Ok js => [(RedisChannel (config sv), js)]
          end
      end.
Proof.
  unfold published_by. rewrite seq_S, flat_map_app. cbn [flat_map].
  rewrite app_nil_r. reflexivity.
Qed.

(** X9.  Whatever the node, json.Marshal and Redis answer, [n] iterations
    of the poller make exactly [n] requests and end at the top of the loop;
    Redis is handed, in the order of the requests, the JSON of every
    template that was fetched and could be serialized: nothing for a failed
    request, and the same template again when the node returns it again. *)
Theorem X9_iterations (n : nat) (s0 : State Template) :
  poller s0 = AtFetch ->
  poller (poll_cycles W sv n s0) = AtFetch /\
  fetches (poll_cycles W sv n s0) = (fetches s0 + n)%nat /\
  bus (poll_cycles W sv n s0) = bus s0 ++ published_by W sv (fetches s0) n /\
  publishes (poll_cycles W sv n s0) =
    (publishes s0 + List.length (published_by W sv (fetches s0) n))%nat.
Proof.
  intros Hpc. induction n as [| n (Hhead & Hfetches & Hbus & Hcount)].
  - cbn. rewrite app_nil_r, !Nat.add_0_r. repeat split; [exact Hpc].
  - rewrite poll_cycles_S, published_by_step.
    set (s := poll_cycles W sv n s0) in *.
    unfold fetch. rewrite <- Hfetches.
    destruct (iteration_cases W sv s) as [[err Hf] | [(t & err & Hf & Hj) | (t & js & Hf & Hj)]].
    + rewrite (poll_cycle_fetch_error W sv s err Hhead Hf), Hf.
      cbn [poller fetches bus publishes]. rewrite app_nil_r.
      repeat split; [lia | exact Hbus | exact Hcount].
    + rewrite (poll_cycle_marshal_error W sv s t err Hhead Hf Hj), Hf, Hj.
      cbn [poller fetches bus publishes]. rewrite app_nil_r.
      repeat split; [lia | exact Hbus | exact Hcount].
    + rewrite (poll_cycle_publish W sv s t js Hhead Hf Hj), Hf, Hj.
      cbn [poller fetches bus publishes].
      rewrite Hbus, <- app_assoc, length_app. cbn [List.length].
      repeat split; lia.
Qed.

Lemma poll_step_rlog (s : State Template) : rlog (poll_step W sv s) = rlog s.
Proof.
  unfold poll_step. destruct (poller s) as [| | t | t | t js |]; try reflexivity.
  - destruct (GetBlockTemplate W (ksApi sv) (minerAddress sv) (fetches s)); reflexivity.
  - destruct (json_Marshal W t); reflexivity.
Qed.

Lemma sys_step_keeps_template (g : goroutine) (s : State Template) :
  currentTemplate s <> None -> currentTemplate (sys_step W sv g s) <> None.
Proof.
  intros Hsome. rewrite sys_step_cache.
  destruct g; [destruct (poller s) |]; try exact Hsome; discriminate.
Qed.

(** X10.  Once a template is stored, currentTemplate is never nil again,
    and the reporter prints nothing from then on: the line that no template
    was fetched yet can only appear before the first store. *)
Theorem X10_template_is_never_cleared (schedule : list goroutine) (s : State Template) :
  currentTemplate s <> None ->
  currentTemplate (run W sv schedule s) <> None /\
  filter is_message (rlog (run W sv schedule s)) = filter is_message (rlog s).
Proof.
  revert s. induction schedule as [| g schedule IH]; intros s Hsome.
  - split; [exact Hsome | reflexivity].
  - cbn [run fold_left].
    destruct (IH (sys_step W sv g s) (sys_step_keeps_template g s Hsome)) as [Hkeep Hlog].
    split; [exact Hkeep |].
    unfold run in Hlog. rewrite Hlog.
    destruct g; cbn [sys_step].
    + rewrite poll_step_rlog. reflexivity.
    + unfold status_tick. cbn [rlog].
      destruct (currentTemplate s); [| contradiction Hsome; reflexivity].
      rewrite filter_app. cbn. rewrite app_nil_r. reflexivity.
Qed.

Lemma run_poller_steps_rlog (schedule : list goroutine) (s : State Template) :
  rlog (run W sv (poller_steps schedule) s) = rlog s.
Proof.
  revert s. induction schedule as [| g schedule IH]; intros s.
  - reflexivity.
  - destruct g; cbn [poller_steps filter].
    + cbn [run fold_left sys_step]. unfold run, poller_steps in IH.
      rewrite IH. apply poll_step_rlog.
    + apply IH.
Qed.

(** X11.  The reporter does not interfere with the poller: under any
    schedule the poller is at the same place, has stored, requested and
    published the same and has the same log as in the run of its own
    steps alone, in which the reporter's log does not change. *)
Theorem X11_reporter_does_not_interfere (schedule : list goroutine) (s : State Template) :
  let a := run W sv schedule s in
  let b := run W sv (poller_steps schedule) s in
  poller a = poller b /\
  currentTemplate a = currentTemplate b /\
  fetches a = fetches b /\
  publishes a = publishes b /\
  bus a = bus b /\
  plog a = plog b /\
  rlog b = rlog s.
Proof.
  intros a b.
  destruct (reporter_does_not_interfere W sv schedule s s (same_poller_refl s))
    as (H1 & H2 & H3 & H4 & H5 & H6).
  repeat split; try assumption. apply run_poller_steps_rlog.
Qed.

(** ** What the goroutines do, and with which arguments *)

Lemma poll_step_events_ok (s : State Template) :
  cache_invariant W sv s ->
  Forall (poller_event_ok W sv) (plog s) ->
  Forall (poller_event_ok W sv) (plog (poll_step W sv s)).
Proof.
  intros Inv Hlog. unfold poll_step. unfold cache_invariant in Inv.
  destruct (poller s) as [| | t | t | t js |]; cbn [plog].
  - unfold GetBlockTemplate.
    destruct (kaspad_GetBlockTemplate W (minerAddress sv) (fetches s)) as [t | err];
      cbn [plog]; apply Forall_app; (split; [exact Hlog |]).
    + constructor; [split; reflexivity | constructor].
    + constructor; [split; reflexivity | constructor; [| constructor]].
      left. split; [reflexivity |]. exists err. reflexivity.
  - apply Forall_app. split; [exact Hlog |]. constructor; [reflexivity | constructor].
  - apply Forall_app. split; [exact Hlog |]. constructor; [exact I | constructor].
  - destruct (json_Marshal W t) as [js | err]; cbn [plog];
      apply Forall_app; (split; [exact Hlog |]).
    + constructor; [exact I | constructor].
    + constructor; [exact I | constructor; [| constructor]].
      right. left. split; [reflexivity |]. exists err. reflexivity.
  - destruct Inv as (_ & _ & Hjson & _).
    apply Forall_app. split; [exact Hlog |].
    constructor; [split; [reflexivity | exists t; exact Hjson] |].
    constructor; [| constructor].
    destruct (redis_Publish W (publishes s) (RedisChannel (config sv)) js) as [err |].
    + right. right. left. split; [reflexivity |]. exists err. reflexivity.
    + right. right. right. split; reflexivity.
  - apply Forall_app. split; [exact Hlog |]. constructor; [reflexivity | constructor].
Qed.

Lemma run_events_ok (schedule : list goroutine) (s : State Template) :
  cache_invariant W sv s ->
  Forall (poller_event_ok W sv) (plog s) ->
  Forall reporter_event_ok (rlog s) ->
  Forall (poller_event_ok W sv) (plog (run W sv schedule s)) /\
  Forall reporter_event_ok (rlog (run W sv schedule s)).
Proof.
  revert s. induction schedule as [| g schedule IH]; intros s Inv Hp Hr.
  - split; assumption.
  - cbn [run fold_left]. destruct g; cbn [sys_step]; apply IH.
    + apply poll_step_invariant. exact Inv.
    + apply poll_step_events_ok; assumption.
    + rewrite poll_step_rlog. exact Hr.
    + apply status_tick_invariant. exact Inv.
    + exact Hp.
    + unfold status_tick. cbn [rlog]. apply Forall_app. split; [exact Hr |].
      constructor; [left; reflexivity |].
      destruct (currentTemplate s); [constructor |].
      constructor; [right; reflexivity | constructor].
Qed.

(** ** What Redis is handed *)

Lemma last_fetched_some (n : nat) (t : Template) :
  last_fetched W sv n = Some t -> exists k, (k < n)%nat /\ fetch k = Ok t.
Proof.
  induction n as [| n IH]; intros Hlast.
  - discriminate Hlast.
  - cbn [last_fetched] in Hlast. fold (fetch n) in Hlast.
    destruct (fetch n) as [t' | err] eqn:Hf.
    + inversion Hlast; subst t'. exists n. split; [lia | exact Hf].
    + destruct (IH Hlast) as (k & Hk & Hfk). exists k. split; [lia | exact Hfk].
Qed.

Lemma bus_entry_ok_later (n m : nat) (entry : string * string) :
  (n <= m)%nat -> bus_entry_ok W sv n entry -> bus_entry_ok W sv m entry.
Proof.
  intros Hle (Hch & k & t & Hk & Hf & Hj).
  split; [exact Hch |]. exists k, t. split; [lia | split; assumption].
Qed.

Lemma poll_step_bus_ok (s : State Template) :
  cache_invariant W sv s ->
  Forall (bus_entry_ok W sv (fetches s)) (bus s) /\ List.length (bus s) = publishes s ->
  Forall (bus_entry_ok W sv (fetches (poll_step W sv s))) (bus (poll_step W sv s)) /\
  List.length (bus (poll_step W sv s)) = publishes (poll_step W sv s).
Proof.
  intros Inv [Hbus Hlen]. unfold poll_step. unfold cache_invariant in Inv.
  destruct (poller s) as [| | t | t | t js |]; cbn [bus fetches publishes];
    try (split; assumption).
  - destruct (GetBlockTemplate W (ksApi sv) (minerAddress sv) (fetches s));
      cbn [bus fetches publishes]; (split; [| exact Hlen]);
      apply (Forall_impl _ (fun entry =>
                              bus_entry_ok_later (fetches s) (S (fetches s)) entry
                                (Nat.le_succ_diag_r (fetches s))));
      exact Hbus.
  - destruct (json_Marshal W t); cbn [bus fetches publishes]; split; assumption.
  - destruct Inv as (Hlast & Hcur & Hjson & _).
    rewrite Hcur in Hlast. symmetry in Hlast.
    destruct (last_fetched_some _ _ Hlast) as (k & Hk & Hf).
    split.
    + apply Forall_app. split; [exact Hbus |].
      constructor; [| constructor].
      split; [reflexivity |]. exists k, t. split; [exact Hk | split; assumption].
    + rewrite length_app. cbn [List.length]. lia.
Qed.

(** X13.  Under every interleaving, each entry that Redis has been handed
    is on the configured channel and is the JSON that json.Marshal
    returned for a template that an earlier request to the node
    returned; and there is one entry for each call of Publish. *)
Theorem X13_bus_entries (schedule : list goroutine) :
  let s := run W sv schedule initial in
  Forall (bus_entry_ok W sv (fetches s)) (bus s) /\
  List.length (bus s) = publishes s.
Proof.
  assert (Hrun : forall sched (s0 : State Template),
             cache_invariant W sv s0 ->
             Forall (bus_entry_ok W sv (fetches s0)) (bus s0) /\
             List.length (bus s0) = publishes s0 ->
             Forall (bus_entry_ok W sv (fetches (run W sv sched s0)))
               (bus (run W sv sched s0)) /\
             List.length (bus (run W sv sched s0)) = publishes (run W sv sched s0)).
  { induction sched as [| g sched IH]; intros s0 Inv Hbus.
    - exact Hbus.
    - cbn [run fold_left]. destruct g; cbn [sys_step]; apply IH.
      + apply poll_step_invariant. exact Inv.
      + apply poll_step_bus_ok; assumption.
      + apply status_tick_invariant. exact Inv.
      + destruct s0. exact Hbus. }
  intros s. apply Hrun; [apply initial_invariant |].
  split; [constructor | reflexivity].
Qed.

End WholeRuns.

(** ** The whole program *)

(** X12.  In a run of the whole program the poller does nothing but
    request a template for the miner address that startup derived, with the
    tag Katpool, store and serialize it, publish JSON that json.Marshal
    returned on the configured channel, sleep for the wait time that
    startup computed, and write its four log lines, the one for a failed
    request with the error wrapped by GetBlockTemplate.  It never prints
    to standard output, never ends the process and never dials or pings;
    and the reporter only sleeps five seconds and prints its one line. *)
Theorem X12_actions_of_the_goroutines {Template : Type} (W : World Template)
    (schedule : list goroutine) (tr : list (event Template)) (s : State Template) :
  main W schedule = (tr, inr s) ->
  exists sv,
    startup W = (tr, inr sv) /\
    Forall (poller_event_ok W sv) (plog s) /\
    Forall reporter_event_ok (rlog s).
Proof.
  unfold main. destruct (startup W) as [tr0 [o | sv]] eqn:Hs; intros Hmain;
    inversion Hmain; subst. clear Hmain.
  exists sv. split; [reflexivity |].
  apply run_events_ok; [apply initial_invariant | constructor | constructor].
Qed.

(** X14.  The treasury key enters startup only through the derivation of
    the payout address: with another key that derives to the same result,
    startup prints, dials and hands to the goroutines exactly the same. *)
Theorem X14_key_only_through_address {Template : Type} (W : World Template)
    (key : string) :
  (forall network,
     fetchKaspaAccountFromPrivateKey (wallet W) network key =
     fetchKaspaAccountFromPrivateKey (wallet W) network (TREASURY_PRIVATE_KEY W)) ->
  startup (with_private_key W key) = startup W.
Proof.
  intros Hsame. unfold startup, with_private_key.
  cbn [godotenv_Load TREASURY_PRIVATE_KEY os_Open json_Decode wallet NewRPCClient
       redis_Ping].
  destruct (godotenv_Load W); [reflexivity |].
  destruct (os_Open W); [reflexivity |].
  destruct (json_Decode W) as [cfg | err]; [| reflexivity].
  cbn [bind ret emit stop app]. rewrite Hsame. reflexivity.
Qed.

(** ** The further properties on concrete inputs *)

Module MoreRuns.

(** X1 on a run: a working deployment dials its node, then pings Redis. *)
Lemma X1_witness :
  exists cfg addr num node rest,
    reaches_wait_time Fixtures.deployment cfg addr /\
    strconv.Atoi (BlockWaitTimeSec cfg) = Ok num /\
    RPCServer cfg = node :: rest /\
    filter is_network (fst (startup Fixtures.deployment)) =
      match NewRPCClient Fixtures.deployment node with
      | Some _ => [Dial node]
      | None => [Dial node; Ping (RedisAddress cfg)]
      end.
Proof. exact (X1_validation_precedes_network Fixtures.deployment eq_refl). Defined.

(** X2 on a run. *)
Lemma X2_witness :
  reaches_wait_time Fixtures.deployment (config Fake.serving) (minerAddress Fake.serving) /\
  (exists num,
     strconv.Atoi (BlockWaitTimeSec (config Fake.serving)) = Ok num /\
     blockWaitTime (ksApi Fake.serving) = wrap_int64 (num * Second)) /\
  (exists rest, RPCServer (config Fake.serving) = address (ksApi Fake.serving) :: rest) /\
  NewRPCClient Fixtures.deployment (address (ksApi Fake.serving)) = None /\
  redis_Ping Fixtures.deployment (RedisAddress (config Fake.serving)) = None /\
  connected (ksApi Fake.serving) = true /\
  fst (startup Fixtures.deployment) =
    [Log "%v %v\n" [VStr "Config : %v"; VConfig (config Fake.serving)];
     Log "%v %v\n" [VStr "Address : "; VStr (minerAddress Fake.serving)];
     Dial (address (ksApi Fake.serving));
     Ping (RedisAddress (config Fake.serving))] /\
  ~ In CloseFile (fst (startup Fixtures.deployment)).
Proof.
  exact (X2_serving_means_all_checks_passed Fixtures.deployment (fst (startup Fixtures.deployment)) Fake.serving eq_refl).
Defined.

(** X3 on a run: the return for a bad wait time closes config.json. *)
Lemma X3_witness :
  let W := Fake.deployment "abc" [] Fake.accepting in
  In CloseFile (fst (startup W)) <-> os_Open W = None /\ Exited 0 <> Exited 1.
Proof.
  exact (X3_deferred_close (Fake.deployment "abc" [] Fake.accepting)
           (fst (startup (Fake.deployment "abc" [] Fake.accepting))) (Exited 0) eq_refl).
Defined.


(** X5 on a run: ten billion seconds do not fit. *)
Lemma X5_witness :
  let W := Fake.deployment "10000000000" [] Fake.accepting in
  exists sv,
    snd (startup W) = inr sv /\
    exists num,
      strconv.Atoi (BlockWaitTimeSec (config sv)) = Ok num /\
      - 2 ^ 63 <= blockWaitTime (ksApi sv) < 2 ^ 63 /\
      (blockWaitTime (ksApi sv) = num * Second <-> -9223372036 <= num <= 9223372036).
Proof.
  intros W.
  exists {| ksApi := {| address := Fake.node;
                        blockWaitTime := wrap_int64 (10000000000 * Second);
                        connected := true |};
            minerAddress := "kaspa:qtreasury";
            config := Fake.bridgeConfig "10000000000" [Fake.node] |}.
  split; [reflexivity |].
  exact (X5_wait_time_overflow W (fst (startup W)) _ eq_refl).
Defined.

(** X6 on a run. *)
Lemma X6_witness :
  exists cfg body,
    json_Decode Fixtures.deployment = Ok cfg /\
    (BlockWaitTimeSec cfg = body \/
     BlockWaitTimeSec cfg = String "+" body \/
     BlockWaitTimeSec cfg = String "-" body) /\
    body <> EmptyString /\
    forall c, In c (list_ascii_of_string body) -> is_digit c = true.
Proof. exact (X6_wait_time_syntax Fixtures.deployment eq_refl). Defined.

(** X7 on a run: the key of the test wallet. *)
Lemma X7_witness :
  exists privateKeyBytes publicKeybytes addressPubKey,
    hex.DecodeString Fake.privateKey = Ok privateKeyBytes /\
    String.length Fake.privateKey = (2 * List.length privateKeyBytes)%nat /\
    Forall (fun c => is_hex_digit c = true) (list_ascii_of_string Fake.privateKey) /\
    Forall (fun b => 0 <= b < 256) privateKeyBytes /\
    PublicKeyFromPrivateKey Fake.kaspaWallet privateKeyBytes = Ok publicKeybytes /\
    NewAddressPublicKey Fake.kaspaWallet publicKeybytes (networkPrefix "testnet-10")
      = Ok addressPubKey /\
    DecodeAddress Fake.kaspaWallet addressPubKey (networkPrefix "testnet-10")
      = Ok "kaspatest:qtreasury".
Proof.
  exact (X7_derived_address Fake.kaspaWallet "testnet-10" Fake.privateKey
           "kaspatest:qtreasury" eq_refl).
Defined.

(** X8 on a run: a key of three characters. *)
Lemma X8_witness :
  exists e,
    ((exists c, In c (list_ascii_of_string "abc") /\
                is_hex_digit c = false /\ e = InvalidByteError c) \/
     e = ErrLength) /\
    forall lib network, fetchKaspaAccountFromPrivateKey lib network "abc" = Err e.
Proof. exact (X8_malformed_key "abc" (or_introl eq_refl)). Defined.

(** X9 on a run: four iterations against the script. *)
Lemma X9_witness :
  let s := poll_cycles Fixtures.deployment Fake.serving 4 initial in
  poller s = AtFetch /\
  fetches s = 4%nat /\
  bus s = [("templates", "{T1}"); ("templates", "{T1}")] /\
  publishes s = 2%nat.
Proof. exact (X9_iterations Fixtures.deployment Fake.serving 4 initial eq_refl). Defined.

(** X10 on a run: after the second iteration T1 is stored. *)
Lemma X10_witness :
  let s := poll_cycles Fixtures.deployment Fake.serving 2 initial in
  let schedule := [Reporter; Poller; Poller; Poller; Reporter; Poller; Reporter] in
  currentTemplate (run Fixtures.deployment Fake.serving schedule s) <> None /\
  filter is_message (rlog (run Fixtures.deployment Fake.serving schedule s)) = filter is_message (rlog s).
Proof.
  intros s schedule.
  refine (X10_template_is_never_cleared Fixtures.deployment Fake.serving schedule s _).
  discriminate.
Defined.

(** X12 on a run of the whole program. *)
Lemma X12_witness :
  let schedule := [Reporter; Poller; Poller; Poller; Poller; Reporter; Poller] in
  exists tr s sv,
    main Fixtures.deployment schedule = (tr, inr s) /\
    startup Fixtures.deployment = (tr, inr sv) /\
    Forall (poller_event_ok Fixtures.deployment sv) (plog s) /\
    Forall reporter_event_ok (rlog s).
Proof.
  intros schedule.
  exists (fst (main Fixtures.deployment schedule)), (run Fixtures.deployment Fake.serving schedule initial).
  destruct (X12_actions_of_the_goroutines Fixtures.deployment schedule (fst (main Fixtures.deployment schedule))
              (run Fixtures.deployment Fake.serving schedule initial) eq_refl) as (sv & Hs & Hp & Hr).
  exists sv. split; [reflexivity | split; [exact Hs | split; assumption]].
Defined.

(** X14 on a run: the test wallet gives every key of 32 bytes the same
    address. *)
Lemma X14_witness :
  startup (with_private_key Fixtures.deployment Fixtures.otherKey) = startup Fixtures.deployment.
Proof.
  refine (X14_key_only_through_address Fixtures.deployment Fixtures.otherKey _).
  intros network. reflexivity.
Defined.

End MoreRuns.
